(** * LangGraph tutorial notebooks: the chatbot graph with tools and human review

    A shallow embedding of the Python code cells of
    [part_2_enhancing_the_chatbot_with_tools.ipynb] and
    [part_5_customizing_state.ipynb]: the model node [chatbot], the
    hand-rolled tool node [BasicToolNode], the router [route_tools], the
    console loop around [stream_graph_updates], and the human-review tool
    [human_assistance].

    Python values are an untyped universe [pyval]; dictionaries are finite
    maps with string keys (equal when they hold the same entries, whatever
    the insertion order).  Exceptions are explicit: every function returns a
    [result].  Calls into the external libraries (the chat model, the tools,
    [json.dumps], [graph.stream], [interrupt], [str] formatting, [str.lower])
    are parameters: uninterpreted functions, and those that reach a provider
    either return or fail.  What [input] does in an iteration of the console
    loop is an argument of that iteration. *)

From stdpp Require Import gmap strings list fin_maps relations.
From Stdlib Require Import ZArith Ascii.

Set Default Proof Using "Type".
#[local] Set Warnings "-register-all".
#[local] Open Scope string_scope.
#[local] Open Scope list_scope.
#[local] Open Scope nat_scope.

(** ** Python values *)

(** Messages follow langchain_core: only an [AIMessage] carries the
    [tool_calls] attribute; a tool call has a name, arguments and a call id;
    a [ToolMessage] is tied to its call by [tool_call_id]. *)
Inductive pyval :=
  | VNone
  | VBool (b : bool)
  | VInt (n : Z)
  | VStr (s : string)
  | VList (xs : list pyval)
  | VDict (d : gmap string pyval)
  | VMsg (m : Message)
with Message :=
  | HumanMessage (content : pyval)
  | AIMessage (content : pyval) (tool_calls : list ToolCall)
  | ToolMessage (content : string) (name : option string) (tool_call_id : string)
with ToolCall :=
  | mkToolCall (name : string) (args : pyval) (id : string).

Definition tc_name (c : ToolCall) : string := let 'mkToolCall n _ _ := c in n.
Definition tc_args (c : ToolCall) : pyval := let 'mkToolCall _ a _ := c in a.
Definition tc_id (c : ToolCall) : string := let 'mkToolCall _ _ i := c in i.

(** ** Exceptions and results *)

(** [ValueError] and [AssertionError] are raised by the [raise] and [assert]
    statements written in the notebooks.  [KeyError], [IndexError],
    [AttributeError] and [TypeError] are raised by the interpreter on a
    missing key, index or attribute.  [GraphInterrupt] is what [interrupt]
    raises while no resume value is there.  [ExternalError] is a failure
    inside an external library call (network, provider, serialization). *)
Inductive exn :=
  | ValueError (msg : string)
  | AssertionError
  | KeyError (key : pyval)
  | IndexError
  | AttributeError (attr : string)
  | TypeError
  | GraphInterrupt (payload : pyval)
  | ExternalError (e : string).

Inductive result (A : Type) :=
  | Return (a : A)
  | Raise (e : exn).
Arguments Return {A} a.
Arguments Raise {A} e.

#[export] Instance result_ret : MRet result := fun _ a => Return a.
#[export] Instance result_bind : MBind result := fun _ _ f m =>
  match m with
  | Return a => f a
  | Raise e => Raise e
  end.

(** An external call either returns or fails with the library's error. *)
Inductive external (A : Type) :=
  | Done (a : A)
  | Failed (e : string).
Arguments Done {A} a.
Arguments Failed {A} e.

(** A failure of an external call propagates: nothing in the node functions
    catches it. *)
Definition call {A} (r : external A) : result A :=
  match r with
  | Done a => Return a
  | Failed e => Raise (ExternalError e)
  end.

(** The errors that a [raise] or [assert] statement of the notebooks
    produces, as opposed to interpreter and library errors. *)
Definition explicit (e : exn) : Prop :=
  match e with
  | ValueError _ | AssertionError => True
  | _ => False
  end.

(** ** Python primitives used by the cells *)

(** Truth value of an object, as tested by [if]. *)
Definition truthy (v : pyval) : bool :=
  match v with
  | VNone => false
  | VBool b => b
  | VInt n => negb (n =? 0)%Z
  | VStr s => negb (String.eqb s "")
  | VList xs => negb (bool_decide (xs = []))
  | VDict d => negb (bool_decide (d = ∅))
  | VMsg _ => true
  end.

Fixpoint str_last (s : string) : option string :=
  match s with
  | EmptyString => None
  | String c EmptyString => Some (String c EmptyString)
  | String _ rest => str_last rest
  end.

(** [v[-1]] *)
Definition subscript_last (v : pyval) : result pyval :=
  match v with
  | VList xs => match last xs with Some x => Return x | None => Raise IndexError end
  | VStr s => match str_last s with Some c => Return (VStr c) | None => Raise IndexError end
  | VDict _ => Raise (KeyError (VInt (-1)))
  | VNone | VBool _ | VInt _ | VMsg _ => Raise TypeError
  end.

(** [d.get(key, default)] *)
Definition get (v : pyval) (key : string) (dflt : pyval) : result pyval :=
  match v with
  | VDict d => Return (default dflt (d !! key))
  | _ => Raise (AttributeError "get")
  end.

(** [d[key]] on a dictionary *)
Definition getitem (d : gmap string pyval) (key : string) : result pyval :=
  match d !! key with
  | Some v => Return v
  | None => Raise (KeyError (VStr key))
  end.

(** The [tool_calls] attribute, when the object has one. *)
Definition tool_calls_attr (v : pyval) : option (list ToolCall) :=
  match v with
  | VMsg (AIMessage _ tcs) => Some tcs
  | _ => None
  end.

(** [m.tool_calls] *)
Definition get_tool_calls (v : pyval) : result (list ToolCall) :=
  match tool_calls_attr v with
  | Some tcs => Return tcs
  | None => Raise (AttributeError "tool_calls")
  end.

(** [m.content] *)
Definition get_content (v : pyval) : result pyval :=
  match v with
  | VMsg (HumanMessage c) | VMsg (AIMessage c _) => Return c
  | VMsg (ToolMessage c _ _) => Return (VStr c)
  | _ => Raise (AttributeError "content")
  end.

(** [v[key]] with a string key *)
Definition subscript (v : pyval) (key : string) : result pyval :=
  match v with
  | VDict d => getitem d key
  | _ => Raise TypeError
  end.

(** [s.startswith(p)] *)
Definition startswith (v : pyval) (p : string) : result bool :=
  match v with
  | VStr s => Return (String.prefix p s)
  | _ => Raise (AttributeError "startswith")
  end.

(** langgraph's [END] constant. *)
Definition END : string := "__end__".

(** A registered tool: its name and its [invoke] method. *)
Record Tool := mkTool {
  tool_name : string;
  invoke : pyval → external pyval;
}.

(** Standard output, one entry per printed line. *)
Definition stdout := list string.

(** A [for] loop whose body prints and may raise: the first exception ends
    the loop, and what was printed before stays printed. *)
Fixpoint for_each {A} (body : A → stdout → stdout * result ())
    (xs : list A) (out : stdout) : stdout * result () :=
  match xs with
  | [] => (out, Return ())
  | x :: rest =>
      match body x out with
      | (out', Return _) => for_each body rest out'
      | (out', Raise e) => (out', Raise e)
      end
  end.

(** ** Part 2: enhancing the chatbot with tools *)

Module Part2.
Section Cells.
(** [str()] as used by f-strings and [print]. *)
Variable py_str : pyval → string.
(** [str.lower] *)
Variable str_lower : string → string.
(** [json.dumps] *)
Variable json_dumps : pyval → external string.
(** [llm_with_tools.invoke] *)
Variable llm_with_tools : pyval → external Message.
(** [graph.stream]: the events it yields, each a list of (node, update)
    pairs in iteration order, and the failure that ends the stream, if any. *)
Variable graph_stream : pyval → list (list (string * pyval)) * option string.

Definition chatbot (state : gmap string pyval) : result (gmap string pyval) :=
  messages ← getitem state "messages";
  reply ← call (llm_with_tools messages);
  mret {[ "messages" := VList [VMsg reply] ]}.

(** [BasicToolNode.__init__]: a later tool of the same name replaces an
    earlier one. *)
Definition BasicToolNode (tools : list Tool) : gmap string Tool :=
  foldl (λ by_name tool, <[tool_name tool := tool]> by_name) ∅ tools.

(** The invocations of tools a call performs, in order: (name, args). *)
Definition invocations := list (string * pyval).

(** The [for tool_call in message.tool_calls] loop of [__call__]; [outputs]
    is the list appended to, [log] records each [invoke]. *)
Fixpoint run_tool_calls (tools_by_name : gmap string Tool)
    (tool_calls : list ToolCall) (outputs : list pyval) (log : invocations)
    : invocations * result (list pyval) :=
  match tool_calls with
  | [] => (log, Return outputs)
  | tool_call :: rest =>
      match tools_by_name !! tc_name tool_call with
      | None => (log, Raise (KeyError (VStr (tc_name tool_call))))
      | Some tool =>
          let log' := log ++ [(tc_name tool_call, tc_args tool_call)] in
          match invoke tool (tc_args tool_call) with
          | Failed e => (log', Raise (ExternalError e))
          | Done tool_result =>
              match json_dumps tool_result with
              | Failed e => (log', Raise (ExternalError e))
              | Done content =>
                  run_tool_calls tools_by_name rest
                    (outputs ++ [VMsg (ToolMessage content
                                         (Some (tc_name tool_call))
                                         (tc_id tool_call))])
                    log'
              end
          end
      end
  end.

(** [BasicToolNode.__call__] *)
Definition BasicToolNode_call (tools_by_name : gmap string Tool)
    (inputs : gmap string pyval) : invocations * result (gmap string pyval) :=
  let messages := default (VList []) (inputs !! "messages") in
  if truthy messages then
    match message ← subscript_last messages; get_tool_calls message with
    | Raise e => ([], Raise e)
    | Return tool_calls =>
        let '(log, r) := run_tool_calls tools_by_name tool_calls [] [] in
        (log, outputs ← r; mret {[ "messages" := VList outputs ]})
    end
  else ([], Raise (ValueError "No message found in input")).

Definition route_tools (state : pyval) : result string :=
  ai_message ←
    match state with
    | VList _ => subscript_last state
    | _ =>
        messages ← get state "messages" (VList []);
        if truthy messages then subscript_last messages
        else Raise (ValueError
               ("No messages found in input state to tool_edge: " +:+ py_str state))
    end;
  match tool_calls_attr ai_message with
  | Some tool_calls =>
      if bool_decide (0 < length tool_calls)%nat then Return "tools" else Return END
  | None => Return END
  end.

(** [print("Assistant:", value["messages"][-1].content)] *)
Definition print_last_message (value : pyval) (out : stdout) : stdout * result () :=
  match messages ← subscript value "messages";
        message ← subscript_last messages;
        get_content message with
  | Return content => (out ++ ["Assistant: " +:+ py_str content], Return ())
  | Raise e => (out, Raise e)
  end.

Definition user_message (user_input : string) : pyval :=
  VDict {[ "messages" :=
    VList [VDict (<["role" := VStr "user"]> {[ "content" := VStr user_input ]})] ]}.

Definition stream_graph_updates (user_input : string) (out : stdout)
    : stdout * result () :=
  let '(events, failure) := graph_stream (user_message user_input) in
  match for_each (λ event, for_each print_last_message event.*2) events out with
  | (out', Return _) =>
      match failure with
      | None => (out', Return ())
      | Some e => (out', Raise (ExternalError e))
      end
  | (out', Raise e) => (out', Raise e)
  end.

(** How one pass through the body of [while True] ends. *)
Inductive control := Continue | Break.

(** The [except:] handler of the loop. *)
Definition fallback (out : stdout) : stdout * result control :=
  let user_input := "What do you know about LangGraph?" in
  let '(out', r) := stream_graph_updates user_input (out ++ ["User: " +:+ user_input]) in
  (out', _ ← r; mret Break).

(** One iteration of the console loop; [line] is what [input("User: ")]
    does: return the line read, or fail. *)
Definition loop_iteration (line : external string) (out : stdout)
    : stdout * result control :=
  match line with
  | Failed _ => fallback out
  | Done user_input =>
      if bool_decide (str_lower user_input ∈ ["quit"; "exit"; "q"]) then
        (out ++ ["Goodbye!"], Return Break)
      else
        match stream_graph_updates user_input out with
        | (out', Return _) => (out', Return Continue)
        | (out', Raise _) => fallback out'
        end
  end.

(** The loop over a console session: the lines [input] returns one after
    the other; when they run out [input] fails with end of file. *)
Fixpoint console_loop (session : list (external string)) (out : stdout)
    : stdout * result () :=
  match session with
  | [] => let '(out', r) := loop_iteration (Failed "EOFError") out in (out', _ ← r; mret ())
  | line :: rest =>
      match loop_iteration line out with
      | (out', Return Continue) => console_loop rest out'
      | (out', Return Break) => (out', Return ())
      | (out', Raise e) => (out', Raise e)
      end
  end.

End Cells.
End Part2.

(** ** Part 5: customizing state *)

Module Part5.

(** langgraph's [Command]; the notebook only sets [update]. *)
Record Command := mkCommand { update : gmap string pyval }.

Section Cells.
(** [str()] as used by f-strings. *)
Variable py_str : pyval → string.
(** [str.lower] *)
Variable str_lower : string → string.
(** [llm_with_tools.invoke] *)
Variable llm_with_tools : pyval → external Message.
(** langgraph's [interrupt], given the value surfaced to the human: the
    resume payload once the run is resumed; before that there is none and
    the call raises [GraphInterrupt] to suspend the run. *)
Variable interrupt : pyval → option pyval.

(** [s.lower()] *)
Definition lower (v : pyval) : result pyval :=
  match v with
  | VStr s => Return (VStr (str_lower s))
  | _ => Raise (AttributeError "lower")
  end.

Definition human_assistance (name birthday tool_call_id : string) : result Command :=
  human_response ←
    (let surfaced :=
       VDict (<["question" := VStr "Is this correct?"]>
              (<["name" := VStr name]> {[ "birthday" := VStr birthday ]})) in
     match interrupt surfaced with
     | Some resume => Return resume
     | None => Raise (GraphInterrupt surfaced)
     end);
  correct ← get human_response "correct" (VStr EmptyString);
  lowered ← lower correct;
  yes ← startswith lowered "y";
  verified ←
    (if yes : bool then mret (VStr name, VStr birthday, "Correct")
     else
       verified_name ← get human_response "name" (VStr name);
       verified_birthday ← get human_response "birthday" (VStr birthday);
       mret (verified_name, verified_birthday,
             "Made a correction: " +:+ py_str human_response));
  let '(verified_name, verified_birthday, response) := verified in
  let state_update : gmap string pyval :=
    <["name" := verified_name]>
    (<["birthday" := verified_birthday]>
     {[ "messages" := VList [VMsg (ToolMessage response None tool_call_id)] ]}) in
  mret (mkCommand state_update).

Definition chatbot (state : gmap string pyval) : result (gmap string pyval) :=
  messages ← getitem state "messages";
  message ← call (llm_with_tools messages);
  tool_calls ← get_tool_calls (VMsg message);
  if bool_decide (length tool_calls ≤ 1)%nat then
    mret {[ "messages" := VList [VMsg message] ]}
  else Raise AssertionError.

End Cells.
End Part5.

(** ** The framework's state update *)

(** Modelled from the spec: the [add_messages] reducer of the external
    framework, which the notebooks only name in the [State] annotation.  The
    spec describes the message-history field as append-only and
    order-preserving: the reducer appends the new messages to the old ones.
    A value that is not a list counts as a one-element list. *)
Definition as_list (v : pyval) : list pyval :=
  match v with
  | VList xs => xs
  | _ => [v]
  end.

Definition add_messages (left right : pyval) : pyval :=
  VList (as_list left ++ as_list right).

(** Modelled from the spec: how the external framework applies a node's
    update to the shared state.  The [messages] key goes through its reducer;
    every other key of the update overwrites the state's; keys the update
    does not name stay as they are. *)
Definition apply_update (state upd : gmap string pyval) : gmap string pyval :=
  match upd !! "messages" with
  | Some new =>
      <["messages" := add_messages (default (VList []) (state !! "messages")) new]>
        (upd ∪ state)
  | None => upd ∪ state
  end.

(** The message history of a state. *)
Definition history (state : gmap string pyval) : list pyval :=
  as_list (default (VList []) (state !! "messages")).

(** One step of a graph built from the notebooks' nodes: a node runs on the
    state, returns an update, and the framework applies it.  The external
    functions may differ from step to step. *)
Inductive node_step : relation (gmap string pyval) :=
  | step_chatbot llm state upd :
      Part2.chatbot llm state = Return upd →
      node_step state (apply_update state upd)
  | step_tools json_dumps tools state log upd :
      Part2.BasicToolNode_call json_dumps (Part2.BasicToolNode tools) state
        = (log, Return upd) →
      node_step state (apply_update state upd)
  | step_chatbot_reviewed llm state upd :
      Part5.chatbot llm state = Return upd →
      node_step state (apply_update state upd)
  | step_human_assistance py_str str_lower interrupt name birthday tool_call_id state cmd :
      Part5.human_assistance py_str str_lower interrupt name birthday tool_call_id
        = Return cmd →
      node_step state (apply_update state (Part5.update cmd)).

(** ** Sample externals, to run the definitions on concrete inputs *)

(** ASCII lowercasing; [str.lower] agrees with it on ASCII text. *)
Definition ascii_lower (c : ascii) : ascii :=
  let n := nat_of_ascii c in
  if bool_decide (65 ≤ n ≤ 90)%nat then ascii_of_nat (n + 32) else c.

Fixpoint sample_lower (s : string) : string :=
  match s with
  | EmptyString => EmptyString
  | String c rest => String (ascii_lower c) (sample_lower rest)
  end.

(** A renderer that shows strings as they are, empty containers and [None]
    as Python does, and any other object as a placeholder. *)
Definition sample_str (v : pyval) : string :=
  match v with
  | VStr s => s
  | VNone => "None"
  | VDict d => if bool_decide (d = ∅) then "{}" else "{...}"
  | VList xs => if bool_decide (xs = []) then "[]" else "[...]"
  | _ => "<object>"
  end.

Definition sample_dumps (v : pyval) : external string := Done (sample_str v).

Definition search_call : ToolCall :=
  mkToolCall "tavily_search_results_json"
    (VDict {[ "query" := VStr "LangGraph release date" ]}) "toolu_01".

Definition review_call : ToolCall :=
  mkToolCall "human_assistance"
    (VDict (<["name" := VStr "LangGraph"]> {[ "birthday" := VStr "January 17, 2024" ]}))
    "toolu_02".

Definition search_tool : Tool :=
  mkTool "tavily_search_results_json" (λ _, Done (VStr "LangGraph Quickstart")).

Definition question : pyval := VMsg (HumanMessage (VStr "What do you know about LangGraph?")).

(** A graph whose stream fails on the input "hello" (the provider is
    unreachable) and otherwise yields one event of the [chatbot] node. *)
Definition sample_stream (input : pyval) : list (list (string * pyval)) * option string :=
  let answer :=
    [[("chatbot",
       VDict {[ "messages" :=
         VList [VMsg (AIMessage (VStr "LangGraph is a library.") [])] ]})]] in
  match input with
  | VDict d =>
      match d !! "messages" with
      | Some (VList [VDict m]) =>
          match m !! "content" with
          | Some (VStr s) =>
              if String.eqb s "hello" then ([], Some "ConnectionError")
              else (answer, None)
          | _ => (answer, None)
          end
      | _ => (answer, None)
      end
  | _ => (answer, None)
  end.

(** ** Vocabulary of the statements *)

(** A tool call is served when its name is registered and both the tool
    and the serializer return; [served] relates the call to the message
    appended for it. *)
Definition served (json_dumps : pyval → external string)
    (tools_by_name : gmap string Tool) (tool_call : ToolCall) (output : pyval) : Prop :=
  ∃ tool tool_result content,
    tools_by_name !! tc_name tool_call = Some tool ∧
    invoke tool (tc_args tool_call) = Done tool_result ∧
    json_dumps tool_result = Done content ∧
    output = VMsg (ToolMessage content (Some (tc_name tool_call)) (tc_id tool_call)).

(** The value [human_assistance] hands to [interrupt]. *)
Definition surfaced (name birthday : string) : pyval :=
  VDict (<["question" := VStr "Is this correct?"]>
         (<["name" := VStr name]> {[ "birthday" := VStr birthday ]})).

(** The state update built from the verified values and the response. *)
Definition state_update (verified_name verified_birthday : pyval)
    (response tool_call_id : string) : gmap string pyval :=
  <["name" := verified_name]>
  (<["birthday" := verified_birthday]>
   {[ "messages" := VList [VMsg (ToolMessage response None tool_call_id)] ]}).

(** [printed_by P out out']: [out'] is [out] followed by lines that all
    satisfy [P]. *)
Definition printed_by (P : string → Prop) (out out' : stdout) : Prop :=
  ∃ lines, out' = out ++ lines ∧ Forall P lines.

(** A line written by [print("Assistant:", ...)]. *)
Definition assistant_line (line : string) : Prop :=
  ∃ content, line = "Assistant: " +:+ content.

(** Unfolds the monadic sequencing of [result] in the goal and hypotheses. *)
Ltac unfold_result :=
  unfold mbind, mret, result_bind, result_ret, call in *; simpl in *.

(** * Properties *)

(** ** Shared lemmas *)


Lemma last_is_Some {A} (xs : list A) : xs ≠ [] → is_Some (last xs).
Proof.
  intros Hne. destruct (last xs) eqn:Hlast; [by eexists|].
  by apply last_None in Hlast.
Qed.

(** What the [for] loop of [BasicToolNode.__call__] raises is never an
    error of the notebooks' own: a missing tool name is a [KeyError], a
    failing tool or serializer an [ExternalError]. *)
Lemma run_tool_calls_raise json_dumps tools_by_name tool_calls outputs log log' e :
  Part2.run_tool_calls json_dumps tools_by_name tool_calls outputs log = (log', Raise e) →
  ¬ explicit e.
Proof.
  revert outputs log.
  induction tool_calls as [|tool_call rest IH]; intros outputs log; simpl.
  - intros [=].
  - destruct (tools_by_name !! tc_name tool_call) as [tool|]; [|intros [= _ <-]; tauto].
    destruct (invoke tool (tc_args tool_call)) as [tool_result|]; [|intros [= _ <-]; tauto].
    destruct (json_dumps tool_result) as [content|]; [|intros [= _ <-]; tauto].
    apply IH.
Qed.

Lemma run_tool_calls_served json_dumps tools_by_name tool_calls outputs log :
  Forall (λ tool_call, ∃ output, served json_dumps tools_by_name tool_call output)
    tool_calls →
  ∃ new,
    Part2.run_tool_calls json_dumps tools_by_name tool_calls outputs log
      = (log ++ ((λ tool_call, (tc_name tool_call, tc_args tool_call)) <$> tool_calls),
         Return (outputs ++ new)) ∧
    Forall2 (served json_dumps tools_by_name) tool_calls new.
Proof.
  intros Hall. revert outputs log.
  induction Hall as [|tool_call rest Hcall _ IH]; intros outputs log; simpl.
  - exists []. by rewrite !app_nil_r.
  - destruct Hcall as (output & tool & tool_result & content & Htool & Hinvoke & Hdumps & ->).
    rewrite Htool, Hinvoke, Hdumps.
    destruct (IH (outputs ++ [VMsg (ToolMessage content (Some (tc_name tool_call))
                                      (tc_id tool_call))])
                 (log ++ [(tc_name tool_call, tc_args tool_call)]))
      as (new & -> & Hnew).
    eexists (_ :: new). rewrite <- !app_assoc. simpl. split; [done|].
    constructor; [|done]. by exists tool, tool_result, content.
Qed.

(** ** The router *)

(** C1: on a graph state whose messages list is non-empty (the dictionary
    form, or the bare list form the router also accepts), [route_tools]
    returns "tools" when the last message has a [tool_calls] attribute with
    at least one entry and [END] otherwise; it returns no other label. *)
Theorem route_tools_label py_str (state : pyval) (messages : list pyval) :
  (state = VList messages ∨
   ∃ d, state = VDict d ∧ d !! "messages" = Some (VList messages)) →
  messages ≠ [] →
  ∃ ai_message,
    last messages = Some ai_message ∧
    (∀ tool_calls,
       tool_calls_attr ai_message = Some tool_calls → tool_calls ≠ [] →
       Part2.route_tools py_str state = Return "tools") ∧
    (tool_calls_attr ai_message = None ∨ tool_calls_attr ai_message = Some [] →
     Part2.route_tools py_str state = Return END) ∧
    (Part2.route_tools py_str state = Return "tools" ∨
     Part2.route_tools py_str state = Return END) ∧
    "tools" ≠ END.
Proof.
  intros Hstate Hne.
  destruct (last_is_Some messages Hne) as [ai_message Hlast].
  exists ai_message. split; [done|].
  assert (Part2.route_tools py_str state =
          match tool_calls_attr ai_message with
          | Some (_ :: _) => Return "tools"
          | _ => Return END
          end) as ->.
  { destruct Hstate as [->|(d & -> & Hd)]; unfold Part2.route_tools; unfold_result.
    - rewrite Hlast. by destruct (tool_calls_attr ai_message) as [[|??]|].
    - rewrite Hd. simpl.
      destruct (bool_decide_reflect (messages = [])) as [?|_]; [done|]. simpl.
      rewrite Hlast. by destruct (tool_calls_attr ai_message) as [[|??]|]. }
  repeat split.
  - intros tool_calls -> Hcalls. by destruct tool_calls.
  - by intros [->| ->].
  - destruct (tool_calls_attr ai_message) as [[|??]|]; auto.
  - done.
Qed.

Lemma route_tools_label_witness :
  Part2.route_tools sample_str
    (VDict {[ "messages" := VList [question; VMsg (AIMessage VNone [search_call])] ]})
    = Return "tools".
Proof.
  destruct (route_tools_label sample_str
              (VDict {[ "messages" := VList [question; VMsg (AIMessage VNone [search_call])] ]})
              [question; VMsg (AIMessage VNone [search_call])])
    as (ai_message & Hlast & Htools & _).
  - right. eexists. split; [reflexivity|]. reflexivity.
  - discriminate.
  - simpl in Hlast. injection Hlast as <-. by apply (Htools [search_call]).
Defined.

(** ** The tool node *)

(** C2: when the last message of the input carries a list of tool calls,
    each naming a registered tool (whose invocation and serialization
    return), [BasicToolNode.__call__] returns a messages list with exactly
    one [ToolMessage] per call, in the order of the calls; each has the
    call's name, the call's id, and the JSON serialization of the result of
    invoking the matching tool on the call's arguments.  Each tool is
    invoked once, in that order. *)
Theorem BasicToolNode_call_messages json_dumps tools_by_name
    (inputs : gmap string pyval) messages message tool_calls :
  inputs !! "messages" = Some (VList messages) →
  last messages = Some message →
  tool_calls_attr message = Some tool_calls →
  Forall (λ tool_call, ∃ output, served json_dumps tools_by_name tool_call output)
    tool_calls →
  ∃ outputs,
    Part2.BasicToolNode_call json_dumps tools_by_name inputs
      = ((λ tool_call, (tc_name tool_call, tc_args tool_call)) <$> tool_calls,
         Return {[ "messages" := VList outputs ]}) ∧
    Forall2 (served json_dumps tools_by_name) tool_calls outputs.
Proof.
  intros Hinputs Hlast Hcalls Hserved.
  unfold Part2.BasicToolNode_call. rewrite Hinputs. simpl.
  assert (messages ≠ []) as Hne by (intros ->; discriminate).
  destruct (bool_decide_reflect (messages = [])) as [?|_]; [done|]. simpl.
  unfold get_tool_calls. unfold_result. rewrite Hlast, Hcalls.
  destruct (run_tool_calls_served json_dumps tools_by_name tool_calls [] [] Hserved)
    as (outputs & -> & Houtputs).
  exists outputs. by split.
Qed.

Lemma BasicToolNode_call_messages_witness :
  Part2.BasicToolNode_call sample_dumps (Part2.BasicToolNode [search_tool])
    {[ "messages" := VList [question; VMsg (AIMessage VNone [search_call])] ]}
  = ([("tavily_search_results_json", tc_args search_call)],
     Return {[ "messages" :=
       VList [VMsg (ToolMessage "LangGraph Quickstart"
                      (Some "tavily_search_results_json") "toolu_01")] ]}).
Proof.
  destruct (BasicToolNode_call_messages sample_dumps (Part2.BasicToolNode [search_tool])
              {[ "messages" := VList [question; VMsg (AIMessage VNone [search_call])] ]}
              [question; VMsg (AIMessage VNone [search_call])]
              (VMsg (AIMessage VNone [search_call])) [search_call])
    as (outputs & -> & Houtputs).
  - reflexivity.
  - reflexivity.
  - reflexivity.
  - constructor; [|constructor]. eexists. exists search_tool. do 2 eexists.
    repeat split; reflexivity.
  - apply Forall2_cons_inv_l in Houtputs as (output & rest & Houtput & Hrest & ->).
    apply Forall2_nil_inv_l in Hrest as ->.
    destruct Houtput as (tool & tool_result & content & Htool & Hinvoke & Hdumps & ->).
    vm_compute in Htool. injection Htool as <-.
    vm_compute in Hinvoke. injection Hinvoke as <-.
    vm_compute in Hdumps. injection Hdumps as <-.
    reflexivity.
Defined.

Lemma last_tool_calls_raise (messages : pyval) (e : exn) :
  (message ← subscript_last messages; get_tool_calls message) = Raise e →
  ¬ explicit e.
Proof.
  unfold get_tool_calls, subscript_last. unfold_result.
  intros Hraise Hexplicit.
  repeat case_match; simplify_eq; done.
Qed.

(** ["No message found in input"] is raised by the guard alone, and exactly
    when the [messages] entry is missing or not truthy. *)
Lemma BasicToolNode_call_guard_falsy json_dumps tools_by_name (inputs : gmap string pyval) :
  (Part2.BasicToolNode_call json_dumps tools_by_name inputs).2
    = Raise (ValueError "No message found in input")
  ↔ truthy (default (VList []) (inputs !! "messages")) = false.
Proof.
  unfold Part2.BasicToolNode_call.
  destruct (truthy (default (VList []) (inputs !! "messages"))); simpl; [|done].
  split; [|done]. intros Hraise. exfalso.
  destruct (_ ≫= get_tool_calls) as [tool_calls|e] eqn:Hlast; simpl in Hraise.
  - destruct (Part2.run_tool_calls _ _ _ _ _) as [log [outputs|e]] eqn:Hrun;
      simpl in Hraise; [done|].
    injection Hraise as ->. by apply run_tool_calls_raise in Hrun.
  - injection Hraise as ->. by apply last_tool_calls_raise in Hlast.
Qed.



(** ** The model node *)

(** What the model node of the extended scenario does with a reply. *)
Lemma chatbot_reviewed_reply llm (state : gmap string pyval) messages reply tool_calls :
  state !! "messages" = Some messages →
  llm messages = Done reply →
  tool_calls_attr (VMsg reply) = Some tool_calls →
  Part5.chatbot llm state =
    if bool_decide (length tool_calls ≤ 1)
    then Return {[ "messages" := VList [VMsg reply] ]}
    else Raise AssertionError.
Proof.
  intros Hstate Hreply Hcalls.
  unfold Part5.chatbot, getitem, get_tool_calls. unfold_result.
  rewrite Hstate. simpl. rewrite Hreply. simpl.
  simpl in Hcalls. by rewrite Hcalls.
Qed.

(** C9: in the extended scenario [chatbot] asserts that the reply has at
    most one tool call: on a reply with two or more it raises
    [AssertionError] and returns no update; on a reply with none or one the
    assertion passes and the update holding the reply is returned. *)
Theorem chatbot_assertion llm (state : gmap string pyval) messages reply tool_calls :
  state !! "messages" = Some messages →
  llm messages = Done reply →
  tool_calls_attr (VMsg reply) = Some tool_calls →
  (2 ≤ length tool_calls → Part5.chatbot llm state = Raise AssertionError) ∧
  (length tool_calls ≤ 1 →
   Part5.chatbot llm state = Return {[ "messages" := VList [VMsg reply] ]}).
Proof.
  intros Hstate Hreply Hcalls.
  rewrite (chatbot_reviewed_reply llm state messages reply tool_calls) by done.
  split; intros Hlen.
  - rewrite bool_decide_eq_false_2; [done|lia].
  - by rewrite bool_decide_eq_true_2.
Qed.

Lemma chatbot_assertion_witness :
  Part5.chatbot (λ _, Done (AIMessage VNone [search_call; review_call]))
    {[ "messages" := VList [question] ]} = Raise AssertionError ∧
  Part5.chatbot (λ _, Done (AIMessage VNone [review_call]))
    {[ "messages" := VList [question] ]}
    = Return {[ "messages" := VList [VMsg (AIMessage VNone [review_call])] ]}.
Proof.
  split.
  - apply (chatbot_assertion (λ _, Done (AIMessage VNone [search_call; review_call]))
             {[ "messages" := VList [question] ]} (VList [question])
             (AIMessage VNone [search_call; review_call]) [search_call; review_call]);
      [reflexivity..|]. simpl. lia.
  - apply (chatbot_assertion (λ _, Done (AIMessage VNone [review_call]))
             {[ "messages" := VList [question] ]} (VList [question])
             (AIMessage VNone [review_call]) [review_call]);
      [reflexivity..|]. simpl. lia.
Defined.

(** C6, as the code has it: on a state with a [messages] entry, [chatbot]
    calls the bound model on that whole entry and, when the model returns a
    reply (which, in the extended scenario, has at most one tool call),
    returns an update whose messages list is exactly that reply.  The result
    depends on no other field of the state and on the model only through its
    answer to that history, and an update has no key but [messages]. *)
Theorem chatbot_update llm (state : gmap string pyval) messages reply :
  state !! "messages" = Some messages →
  llm messages = Done reply →
  Part2.chatbot llm state = Return {[ "messages" := VList [VMsg reply] ]} ∧
  (∀ tool_calls,
     tool_calls_attr (VMsg reply) = Some tool_calls → length tool_calls ≤ 1 →
     Part5.chatbot llm state = Return {[ "messages" := VList [VMsg reply] ]}) ∧
  (∀ (state' : gmap string pyval) llm',
     state' !! "messages" = Some messages → llm' messages = Done reply →
     Part2.chatbot llm' state' = Part2.chatbot llm state ∧
     Part5.chatbot llm' state' = Part5.chatbot llm state) ∧
  (∀ upd,
     Part2.chatbot llm state = Return upd ∨ Part5.chatbot llm state = Return upd →
     dom upd = {[ "messages" ]}).
Proof.
  intros Hstate Hreply.
  assert (Part2.chatbot llm state = Return {[ "messages" := VList [VMsg reply] ]}) as H2.
  { unfold Part2.chatbot, getitem. unfold_result. by rewrite Hstate, Hreply. }
  split; [done|]. split; [|split].
  - intros tool_calls Hcalls Hlen.
    rewrite (chatbot_reviewed_reply llm state messages reply tool_calls) by done.
    by rewrite bool_decide_eq_true_2.
  - intros state' llm' Hstate' Hreply'.
    unfold Part2.chatbot, Part5.chatbot, getitem. unfold_result.
    by rewrite Hstate, Hstate', Hreply, Hreply'.
  - intros upd [Hupd|Hupd].
    + rewrite H2 in Hupd. injection Hupd as <-. by rewrite dom_singleton_L.
    + revert Hupd. unfold Part5.chatbot, getitem, get_tool_calls. unfold_result.
      rewrite Hstate. simpl. rewrite Hreply. simpl.
      destruct reply; simpl; try done.
      case_bool_decide; [|done]. intros [= <-]. by rewrite dom_singleton_L.
Qed.

Lemma chatbot_update_witness :
  Part2.chatbot (λ _, Done (AIMessage VNone [search_call]))
    (<["name" := VStr "LangGraph"]> {[ "messages" := VList [question] ]})
  = Return {[ "messages" := VList [VMsg (AIMessage VNone [search_call])] ]}.
Proof.
  apply (chatbot_update (λ _, Done (AIMessage VNone [search_call]))
           (<["name" := VStr "LangGraph"]> {[ "messages" := VList [question] ]})
           (VList [question]) (AIMessage VNone [search_call])); reflexivity.
Defined.

(** C6 fails as stated for the model node of the extended scenario: the
    model replies with two tool calls, and [chatbot] raises instead of
    returning an update that holds the reply. *)
Lemma chatbot_reply_without_update :
  Part5.chatbot (λ _, Done (AIMessage VNone [review_call; search_call]))
    {[ "messages" := VList [question] ]} = Raise AssertionError.
Proof. reflexivity. Qed.

(** ** The human-review tool *)

(** C5, as the code has it ([str.lower] maps the empty string to itself):
    on a resume payload that is a dict whose [correct] entry is missing or
    a string, [human_assistance] returns a
    [Command] whose update keeps the proposed name and birthday, with
    message content "Correct", when the lowercased entry starts with "y";
    otherwise the update takes the payload's [name] and [birthday] entries,
    each defaulting to the proposed value, and the message content records
    the payload.  In both cases the one [ToolMessage] carries the injected
    [tool_call_id]. *)
Theorem human_assistance_update py_str str_lower interrupt
    (name birthday tool_call_id : string) (human_response : gmap string pyval) :
  str_lower EmptyString = EmptyString →
  interrupt (surfaced name birthday) = Some (VDict human_response) →
  (∀ correct,
     human_response !! "correct" = Some (VStr correct) →
     String.prefix "y" (str_lower correct) = true →
     Part5.human_assistance py_str str_lower interrupt name birthday tool_call_id
       = Return (Part5.mkCommand
           (state_update (VStr name) (VStr birthday) "Correct" tool_call_id))) ∧
  (human_response !! "correct" = None ∨
   (∃ correct, human_response !! "correct" = Some (VStr correct) ∧
               String.prefix "y" (str_lower correct) = false) →
   Part5.human_assistance py_str str_lower interrupt name birthday tool_call_id
     = Return (Part5.mkCommand
         (state_update
            (default (VStr name) (human_response !! "name"))
            (default (VStr birthday) (human_response !! "birthday"))
            ("Made a correction: " +:+ py_str (VDict human_response))
            tool_call_id))).
Proof.
  intros Hempty Hresume. unfold Part5.human_assistance. fold (surfaced name birthday).
  rewrite Hresume. unfold get, Part5.lower, startswith. unfold_result.
  split.
  - intros correct -> Hyes. simpl. by rewrite Hyes.
  - intros [->|(correct & -> & Hno)]; simpl.
    + by rewrite Hempty.
    + by rewrite Hno.
Qed.

Lemma human_assistance_update_witness :
  Part5.human_assistance sample_str sample_lower
    (λ _, Some (VDict (<["name" := VStr "LangGraph"]>
                       {[ "birthday" := VStr "Jan 17, 2024" ]})))
    "LangGraph" "January 17, 2024" "toolu_02"
  = Return (Part5.mkCommand
      (state_update (VStr "LangGraph") (VStr "Jan 17, 2024")
         "Made a correction: {...}" "toolu_02")).
Proof.
  pose proof (human_assistance_update sample_str sample_lower
           (λ _, Some (VDict (<["name" := VStr "LangGraph"]>
                              {[ "birthday" := VStr "Jan 17, 2024" ]})))
           "LangGraph" "January 17, 2024" "toolu_02"
           (<["name" := VStr "LangGraph"]> {[ "birthday" := VStr "Jan 17, 2024" ]})
           eq_refl eq_refl) as [_ Hcorrection].
  apply Hcorrection. left. reflexivity.
Defined.

(** C5 fails as stated on a payload whose [correct] entry is not a string:
    the entry is no string starting with "y", yet no [Command] is returned;
    the call to [lower] raises. *)
Lemma human_assistance_correct_not_a_string :
  Part5.human_assistance sample_str sample_lower
    (λ _, Some (VDict {[ "correct" := VBool true ]}))
    "LangGraph" "January 17, 2024" "toolu_02"
  = Raise (AttributeError "lower").
Proof. reflexivity. Qed.

(** The keys of a state update, and what applying it leaves alone. *)
Lemma state_update_frame (verified_name verified_birthday : pyval)
    (response tool_call_id : string) :
  dom (state_update verified_name verified_birthday response tool_call_id)
    = {[ "name"; "birthday"; "messages" ]} ∧
  ∀ (state : gmap string pyval) key,
    key ∉ ({[ "name"; "birthday"; "messages" ]} : gset string) →
    apply_update state
      (state_update verified_name verified_birthday response tool_call_id) !! key
    = state !! key.
Proof.
  unfold state_update. split.
  - rewrite !dom_insert_L, dom_singleton_L. set_solver.
  - intros state key Hkey. unfold apply_update.
    assert (key ≠ "name" ∧ key ≠ "birthday" ∧ key ≠ "messages") as (? & ? & ?).
    { rewrite !not_elem_of_union, !not_elem_of_singleton in Hkey. tauto. }
    rewrite lookup_insert_ne, lookup_insert_ne, lookup_singleton_eq by done.
    rewrite lookup_insert_ne by done.
    apply lookup_union_r.
    by rewrite !lookup_insert_ne, lookup_singleton_ne.
Qed.

(** The three ways a call of [human_assistance] ends. *)
Lemma human_assistance_cases py_str str_lower interrupt
    (name birthday tool_call_id : string) :
  (∃ verified_name verified_birthday response,
     Part5.human_assistance py_str str_lower interrupt name birthday tool_call_id
       = Return (Part5.mkCommand
           (state_update verified_name verified_birthday response tool_call_id))) ∨
  Part5.human_assistance py_str str_lower interrupt name birthday tool_call_id
    = Raise (GraphInterrupt (surfaced name birthday)) ∨
  (∃ attr,
     Part5.human_assistance py_str str_lower interrupt name birthday tool_call_id
       = Raise (AttributeError attr)).
Proof.
  unfold Part5.human_assistance. fold (surfaced name birthday).
  destruct (interrupt (surfaced name birthday)) as [human_response|]; [|by right; left].
  unfold get, Part5.lower, startswith. unfold_result.
  destruct human_response as [| | | | |d|]; try (right; right; by eexists).
  simpl. destruct (default _ _) as [| | |correct| | |]; try (right; right; by eexists).
  simpl. left.
  destruct (String.prefix "y" (str_lower correct)); simpl; by do 3 eexists.
Qed.

(** C10: whatever the resume payload, a [Command] returned by
    [human_assistance] updates the keys [name], [birthday] and [messages]
    and no other: applying it leaves every other key of the state as it was.
    When no [Command] is returned the call has raised: [GraphInterrupt]
    before the resume, or an attribute error on an ill-formed payload. *)
Theorem human_assistance_frame py_str str_lower interrupt
    (name birthday tool_call_id : string) :
  match Part5.human_assistance py_str str_lower interrupt name birthday tool_call_id with
  | Return cmd =>
      dom (Part5.update cmd) = {[ "name"; "birthday"; "messages" ]} ∧
      ∀ (state : gmap string pyval) key,
        key ∉ ({[ "name"; "birthday"; "messages" ]} : gset string) →
        apply_update state (Part5.update cmd) !! key = state !! key
  | Raise e =>
      e = GraphInterrupt (surfaced name birthday) ∨ ∃ attr, e = AttributeError attr
  end.
Proof.
  destruct (human_assistance_cases py_str str_lower interrupt name birthday tool_call_id)
    as [(verified_name & verified_birthday & response & ->)| [->|[attr ->]]].
  - apply state_update_frame.
  - by left.
  - right. by exists attr.
Qed.

Lemma human_assistance_frame_witness :
  dom (state_update (VStr "LangGraph") (VStr "January 17, 2024") "Correct" "toolu_02")
    = {[ "name"; "birthday"; "messages" ]} ∧
  ∀ (state : gmap string pyval) key,
    key ∉ ({[ "name"; "birthday"; "messages" ]} : gset string) →
    apply_update state
      (state_update (VStr "LangGraph") (VStr "January 17, 2024") "Correct" "toolu_02")
      !! key = state !! key.
Proof.
  exact (human_assistance_frame sample_str sample_lower
           (λ _, Some (VDict {[ "correct" := VStr "Yes" ]}))
           "LangGraph" "January 17, 2024" "toolu_02").
Defined.

(** ** The message history *)

(** Applying an update appends the update's messages to the history. *)
Lemma history_apply_update (state upd : gmap string pyval) :
  history (apply_update state upd)
    = history state ++ from_option as_list [] (upd !! "messages").
Proof.
  unfold history, apply_update.
  destruct (upd !! "messages") as [new|] eqn:Hnew; simpl.
  - by rewrite lookup_insert_eq.
  - by rewrite lookup_union_r, app_nil_r.
Qed.

(** ** The console loop *)

Lemma printed_by_refl P out : printed_by P out out.
Proof. exists []. by rewrite app_nil_r. Qed.

Lemma printed_by_trans P out1 out2 out3 :
  printed_by P out1 out2 → printed_by P out2 out3 → printed_by P out1 out3.
Proof.
  intros (lines1 & -> & H1) (lines2 & -> & H2).
  exists (lines1 ++ lines2). rewrite app_assoc. split; [done|]. by apply Forall_app.
Qed.

Lemma for_each_printed {A} P (body : A → stdout → stdout * result ()) xs out out' r :
  (∀ x o o' r', body x o = (o', r') → printed_by P o o') →
  for_each body xs out = (out', r) → printed_by P out out'.
Proof.
  intros Hbody. revert out.
  induction xs as [|x rest IH]; intros out; simpl.
  - intros [= <- _]. apply printed_by_refl.
  - destruct (body x out) as [mid [[]|e]] eqn:Hx.
    + intros Hrest. eapply printed_by_trans; [by eapply Hbody|by apply IH].
    + intros [= <- _]. by eapply Hbody.
Qed.

Lemma for_each_raise {A} (body : A → stdout → stdout * result ()) xs out out' e :
  (∀ x o o' e', body x o = (o', Raise e') → ¬ explicit e') →
  for_each body xs out = (out', Raise e) → ¬ explicit e.
Proof.
  intros Hbody. revert out.
  induction xs as [|x rest IH]; intros out; simpl.
  - intros [=].
  - destruct (body x out) as [mid [[]|e']] eqn:Hx.
    + apply IH.
    + intros [= _ <-]. by eapply Hbody.
Qed.

Lemma print_last_message_printed py_str value out out' r :
  Part2.print_last_message py_str value out = (out', r) →
  printed_by assistant_line out out'.
Proof.
  unfold Part2.print_last_message.
  destruct (_ ≫= _) as [content|e].
  - intros [= <- _]. eexists [_]. split; [done|].
    constructor; [by eexists|constructor].
  - intros [= <- _]. apply printed_by_refl.
Qed.

Lemma print_last_message_raise py_str value out out' e :
  Part2.print_last_message py_str value out = (out', Raise e) → ¬ explicit e.
Proof.
  unfold Part2.print_last_message, subscript, getitem, subscript_last, get_content.
  unfold_result. intros Hraise Hexplicit.
  repeat case_match; simplify_eq; done.
Qed.

Lemma stream_graph_updates_printed py_str graph_stream user_input out out' r :
  Part2.stream_graph_updates py_str graph_stream user_input out = (out', r) →
  printed_by assistant_line out out'.
Proof.
  unfold Part2.stream_graph_updates.
  destruct (graph_stream _) as [events failure].
  destruct (for_each _ events out) as [mid r'] eqn:Hevents.
  assert (printed_by assistant_line out mid) as Hmid.
  { eapply for_each_printed; [|exact Hevents].
    intros event o o' r'' Hevent. eapply for_each_printed; [|exact Hevent].
    intros value ????. by eapply print_last_message_printed. }
  destruct r' as [[]|e]; [destruct failure|]; by intros [= <- _].
Qed.

Lemma stream_graph_updates_raise py_str graph_stream user_input out out' e :
  Part2.stream_graph_updates py_str graph_stream user_input out = (out', Raise e) →
  ¬ explicit e.
Proof.
  unfold Part2.stream_graph_updates.
  destruct (graph_stream _) as [events failure].
  destruct (for_each _ events out) as [mid [[]|e']] eqn:Hevents.
  - destruct failure; intros [= _ <-]. tauto.
  - intros [= _ <-]. eapply for_each_raise; [|exact Hevents].
    intros event o o' e'' Hevent. eapply for_each_raise; [|exact Hevent].
    intros value ???. by eapply print_last_message_raise.
Qed.

(** The handler prints the fallback question, then assistant lines, and
    ends the loop: it breaks, or the failure of its own stream propagates. *)
Lemma fallback_spec py_str graph_stream out out' r :
  Part2.fallback py_str graph_stream out = (out', r) →
  printed_by assistant_line (out ++ ["User: What do you know about LangGraph?"]) out' ∧
  (r = Return Part2.Break ∨ ∃ e, r = Raise e ∧ ¬ explicit e).
Proof.
  unfold Part2.fallback.
  destruct (Part2.stream_graph_updates _ _ _ _) as [mid r'] eqn:Hstream.
  intros [= <- <-]. split.
  - by eapply stream_graph_updates_printed.
  - destruct r' as [[]|e]; unfold_result; [by left|right].
    exists e. split; [done|]. by eapply stream_graph_updates_raise.
Qed.

Lemma not_assistant_line_goodbye : ¬ assistant_line "Goodbye!".
Proof. intros [content Hline]. simpl in Hline. discriminate. Qed.

(** C8, as the code has it: in an iteration that reads a line, the loop
    prints "Goodbye!" and ends exactly when the lowercased line is "quit",
    "exit" or "q".  On any other line it streams the graph's response for
    that line and, when the streaming returns, goes on to the next
    iteration; when the streaming raises, the [except] handler prints and
    streams the fallback question and the loop ends, "Goodbye!" unprinted. *)
Theorem loop_iteration_line py_str str_lower graph_stream
    (user_input : string) (out : stdout) :
  ((∃ printed,
      Part2.loop_iteration py_str str_lower graph_stream (Done user_input) out
        = (out ++ printed, Return Part2.Break) ∧
      "Goodbye!" ∈ printed)
   ↔ str_lower user_input ∈ ["quit"; "exit"; "q"]) ∧
  (str_lower user_input ∈ ["quit"; "exit"; "q"] →
   Part2.loop_iteration py_str str_lower graph_stream (Done user_input) out
     = (out ++ ["Goodbye!"], Return Part2.Break)) ∧
  (str_lower user_input ∉ ["quit"; "exit"; "q"] →
   ∀ out',
     Part2.stream_graph_updates py_str graph_stream user_input out = (out', Return ()) →
     Part2.loop_iteration py_str str_lower graph_stream (Done user_input) out
       = (out', Return Part2.Continue)) ∧
  (str_lower user_input ∉ ["quit"; "exit"; "q"] →
   ∀ out' e,
     Part2.stream_graph_updates py_str graph_stream user_input out = (out', Raise e) →
     Part2.loop_iteration py_str str_lower graph_stream (Done user_input) out
       = Part2.fallback py_str graph_stream out' ∧
     (Part2.fallback py_str graph_stream out').2 ≠ Return Part2.Continue).
Proof.
  assert (str_lower user_input ∈ ["quit"; "exit"; "q"] →
          Part2.loop_iteration py_str str_lower graph_stream (Done user_input) out
            = (out ++ ["Goodbye!"], Return Part2.Break)) as Hquit.
  { intros Hin. unfold Part2.loop_iteration. by rewrite bool_decide_eq_true_2. }
  assert (str_lower user_input ∉ ["quit"; "exit"; "q"] →
          ∀ out',
            Part2.stream_graph_updates py_str graph_stream user_input out
              = (out', Return ()) →
            Part2.loop_iteration py_str str_lower graph_stream (Done user_input) out
              = (out', Return Part2.Continue)) as Hnext.
  { intros Hin out' Hstream. unfold Part2.loop_iteration.
    rewrite bool_decide_eq_false_2 by done. by rewrite Hstream. }
  assert (str_lower user_input ∉ ["quit"; "exit"; "q"] →
          ∀ out' e,
            Part2.stream_graph_updates py_str graph_stream user_input out
              = (out', Raise e) →
            Part2.loop_iteration py_str str_lower graph_stream (Done user_input) out
              = Part2.fallback py_str graph_stream out' ∧
            (Part2.fallback py_str graph_stream out').2 ≠ Return Part2.Continue) as Hfail.
  { intros Hin out' e Hstream. split.
    - unfold Part2.loop_iteration.
      rewrite bool_decide_eq_false_2 by done. by rewrite Hstream.
    - destruct (Part2.fallback py_str graph_stream out') as [out'' r] eqn:Hfallback.
      apply fallback_spec in Hfallback as [_ [->|(e' & -> & _)]]; done. }
  split; [|done].
  split.
  - intros (printed & Hloop & Hgoodbye).
    destruct (decide (str_lower user_input ∈ ["quit"; "exit"; "q"])) as [|Hin]; [done|].
    exfalso.
    destruct (Part2.stream_graph_updates py_str graph_stream user_input out)
      as [mid [[]|e]] eqn:Hstream.
    + rewrite (Hnext Hin mid eq_refl) in Hloop. done.
    + destruct (Hfail Hin mid e eq_refl) as [Heq _]. rewrite Heq in Hloop.
      apply stream_graph_updates_printed in Hstream as (lines1 & -> & Hlines1).
      apply fallback_spec in Hloop as [(lines2 & Hout & Hlines2) _].
      rewrite <- !app_assoc in Hout. apply app_inv_head in Hout. subst printed.
      rewrite !elem_of_app, list_elem_of_singleton in Hgoodbye.
      destruct Hgoodbye as [Hin1|[?|Hin2]]; [|done|].
      * rewrite Forall_forall in Hlines1.
        by apply not_assistant_line_goodbye, Hlines1.
      * rewrite Forall_forall in Hlines2.
        by apply not_assistant_line_goodbye, Hlines2.
  - intros Hin. exists ["Goodbye!"]. split; [by apply Hquit|].
    by apply list_elem_of_singleton.
Qed.

Lemma loop_iteration_line_witness :
  Part2.loop_iteration sample_str sample_lower sample_stream (Done "EXIT") []
    = (["Goodbye!"], Return Part2.Break) ∧
  Part2.loop_iteration sample_str sample_lower sample_stream (Done "hi") []
    = (["Assistant: LangGraph is a library."], Return Part2.Continue).
Proof.
  split.
  - destruct (loop_iteration_line sample_str sample_lower sample_stream "EXIT" [])
      as (_ & Hquit & _).
    apply Hquit. vm_compute (sample_lower _).
    apply list_elem_of_further, list_elem_of_here.
  - destruct (loop_iteration_line sample_str sample_lower sample_stream "hi" [])
      as (_ & _ & Hnext & _).
    apply Hnext; [|reflexivity]. vm_compute (sample_lower _).
    intros Hin. repeat (apply elem_of_cons in Hin as [Heq|Hin]; [discriminate Heq|]).
    by apply elem_of_nil in Hin.
Defined.

(** C8 fails as stated when the streaming raises: "hello" is no sentinel
    and the provider is unreachable; the loop does not go on to the next
    iteration, it prints and streams the fallback question and breaks. *)
Lemma loop_iteration_stream_failure :
  bool_decide (sample_lower "hello" ∈ ["quit"; "exit"; "q"]) = false ∧
  Part2.stream_graph_updates sample_str sample_stream "hello" []
    = ([], Raise (ExternalError "ConnectionError")) ∧
  Part2.loop_iteration sample_str sample_lower sample_stream (Done "hello") []
    = (["User: What do you know about LangGraph?";
        "Assistant: LangGraph is a library."],
       Return Part2.Break).
Proof. repeat split; reflexivity. Qed.

(** ** Errors *)













(** * The other cells *)

(** ** Part 2: API key setup *)

Fixpoint str_contains (c : ascii) (s : string) : bool :=
  match s with
  | EmptyString => false
  | String c' rest => if Ascii.eqb c c' then true else str_contains c rest
  end.

(** [os.environ[var] = value] on POSIX, where names are stored as given:
    a name or value that holds a NUL byte, and a name that is empty or
    holds "=", are refused with [ValueError] by the [os] module, and the
    environment stays as it was. *)
Definition environ_setitem (var value : string) (environ : gmap string string)
    : result (gmap string string) :=
  if str_contains zero var || str_contains zero value then
    Raise (ExternalError "ValueError: embedded null byte")
  else if String.eqb var EmptyString || str_contains "="%char var then
    Raise (ExternalError "ValueError: illegal environment variable name")
  else Return (<[var := value]> environ).

(** [_set_env]: [environ] is [os.environ]; [getpass] is [getpass.getpass],
    given the prompt.  The result holds the prompts shown and the
    environment afterwards. *)
Definition _set_env (getpass : string → external string)
    (var : string) (environ : gmap string string)
    : list string * result (gmap string string) :=
  if negb (truthy (from_option VStr VNone (environ !! var))) then
    let prompt := var +:+ ": " in
    match getpass prompt with
    | Done secret => ([prompt], environ_setitem var secret environ)
    | Failed e => ([prompt], Raise (ExternalError e))
    end
  else ([], Return environ).

(** ** Part 5: printing the streamed states *)

(** [message.pretty_print()]; [pretty_repr] is the text langchain renders
    for a message.  One entry of [stdout] per call. *)
Definition pretty_print (pretty_repr : Message → string) (v : pyval) (out : stdout)
    : stdout * result () :=
  match v with
  | VMsg m => (out ++ [pretty_repr m], Return ())
  | _ => (out, Raise (AttributeError "pretty_print"))
  end.

(** The loop [for event in events: if "messages" in event:
    event["messages"][-1].pretty_print()]; each event is a dict, the state
    after a step. *)
Definition print_events (pretty_repr : Message → string)
    (events : list (gmap string pyval)) (out : stdout) : stdout * result () :=
  for_each
    (λ event out,
       if bool_decide ("messages" ∈ dom event) then
         match messages ← getitem event "messages"; subscript_last messages with
         | Return message => pretty_print pretty_repr message out
         | Raise e => (out, Raise e)
         end
       else (out, Return ()))
    events out.

(** The dict comprehension [{k: v for k, v in snapshot.values.items()
    if k in ("name", "birthday")}]. *)
Definition name_and_birthday (values : gmap string pyval) : gmap string pyval :=
  filter (λ kv, kv.1 ∈ ["name"; "birthday"]) values.

(** ** Vocabulary of the further statements *)

(** The tool calls [BasicToolNode.__call__] is asked to run: those of the
    last message, none when there is no such message or attribute. *)
Definition requested (inputs : gmap string pyval) : list ToolCall :=
  match subscript_last (default (VList []) (inputs !! "messages")) with
  | Return message => default [] (tool_calls_attr message)
  | Raise _ => []
  end.

(** What a tool call is logged as. *)
Definition invocation (tool_call : ToolCall) : string * pyval :=
  (tc_name tool_call, tc_args tool_call).

(** [shown py_str value line]: [value] is an update whose last message has
    a content, and [line] is what [stream_graph_updates] prints for it. *)
Definition shown (py_str : pyval → string) (value : pyval) (line : string) : Prop :=
  ∃ content,
    (messages ← subscript value "messages";
     message ← subscript_last messages;
     get_content message) = Return content ∧
    line = "Assistant: " +:+ py_str content.

(** * Further properties *)

(** ** API key setup *)

(** X1: a variable that is set to a non-empty value is left alone:
    [_set_env] shows no prompt, never calls for a secret, and returns the
    environment as it was. *)
Theorem set_env_keeps_existing getpass (var value : string)
    (environ : gmap string string) :
  environ !! var = Some value →
  value ≠ EmptyString →
  _set_env getpass var environ = ([], Return environ).
Proof.
  intros Hvar Hvalue. unfold _set_env. rewrite Hvar. simpl.
  destruct (String.eqb_spec value EmptyString) as [?|_]; done.
Qed.

Lemma set_env_keeps_existing_witness :
  _set_env (λ _, Failed "no terminal") "TAVILY_API_KEY"
    {[ "TAVILY_API_KEY" := "tvly-123" ]}
  = ([], Return {[ "TAVILY_API_KEY" := "tvly-123" ]}).
Proof.
  apply (set_env_keeps_existing _ "TAVILY_API_KEY" "tvly-123"); [reflexivity|discriminate].
Defined.



(** ** The tool registry *)

Lemma foldl_insert_tool_lookup (tools : list Tool) (by_name : gmap string Tool) name :
  foldl (λ by_name tool, <[tool_name tool := tool]> by_name) by_name tools !! name
  = match last (filter (λ tool, tool_name tool = name) tools) with
    | Some tool => Some tool
    | None => by_name !! name
    end.
Proof.
  revert by_name. induction tools as [|tool tools IH]; intros by_name; simpl; [done|].
  rewrite IH, filter_cons.
  destruct (decide (tool_name tool = name)) as [Heq|Hne].
  - rewrite last_cons.
    destruct (last (filter _ tools)); [done|]. rewrite <- Heq. apply lookup_insert_eq.
  - destruct (last (filter _ tools)); [done|]. by apply lookup_insert_ne.
Qed.

(** X3: [BasicToolNode.__init__] registers, under each name, the last tool
    of the list that has this name; a name no tool has is not registered. *)
Theorem BasicToolNode_registers_last (tools : list Tool) (name : string) :
  Part2.BasicToolNode tools !! name
  = last (filter (λ tool, tool_name tool = name) tools).
Proof.
  unfold Part2.BasicToolNode. rewrite foldl_insert_tool_lookup.
  by destruct (last _).
Qed.

(** ** The tool node, further *)

(** The loop logs the calls it reaches, in order, and all of them when it
    returns. *)
Lemma run_tool_calls_log json_dumps tools_by_name tool_calls outputs log log' r :
  Part2.run_tool_calls json_dumps tools_by_name tool_calls outputs log = (log', r) →
  ∃ n, log' = log ++ (invocation <$> take n tool_calls) ∧
       (∀ outputs', r = Return outputs' → log' = log ++ (invocation <$> tool_calls)).
Proof.
  revert outputs log.
  induction tool_calls as [|tool_call rest IH]; intros outputs log; simpl.
  - intros [= <- <-]. exists 0. simpl. by rewrite app_nil_r.
  - destruct (tools_by_name !! tc_name tool_call) as [tool|].
    2:{ intros [= <- <-]. exists 0. simpl. rewrite app_nil_r.
        split; [done|intros ? [=]]. }
    destruct (invoke tool (tc_args tool_call)) as [tool_result|].
    2:{ intros [= <- <-]. exists 1. simpl. split; [done|intros ? [=]]. }
    destruct (json_dumps tool_result) as [content|].
    2:{ intros [= <- <-]. exists 1. simpl. split; [done|intros ? [=]]. }
    intros Hrun. apply IH in Hrun as (n & Hlog & Hreturn).
    exists (S n). simpl. rewrite <- !app_assoc in Hlog. split; [done|].
    intros outputs' Hr. rewrite (Hreturn outputs' Hr). by rewrite <- app_assoc.
Qed.

(** With calls to run, [__call__] is the loop over them. *)
Lemma BasicToolNode_call_requested json_dumps tools_by_name (inputs : gmap string pyval) :
  requested inputs ≠ [] →
  Part2.BasicToolNode_call json_dumps tools_by_name inputs
  = let '(log, r) :=
      Part2.run_tool_calls json_dumps tools_by_name (requested inputs) [] [] in
    (log, outputs ← r; mret {[ "messages" := VList outputs ]}).
Proof.
  unfold requested, Part2.BasicToolNode_call, get_tool_calls.
  destruct (subscript_last _) as [message|e] eqn:Hlast; [|done].
  destruct (tool_calls_attr message) as [tool_calls|] eqn:Hcalls; [|done].
  simpl. intros Hne.
  assert (truthy (default (VList []) (inputs !! "messages")) = true) as ->.
  { revert Hlast. unfold subscript_last.
    destruct (default _ _) as [| | |s|xs|d|m]; try done.
    - destruct (str_last s); [|done]. intros [= <-]. done.
    - destruct xs; [done|]. done. }
  unfold_result. by rewrite Hcalls.
Qed.

Lemma BasicToolNode_call_log json_dumps tools_by_name (inputs : gmap string pyval) :
  (Part2.BasicToolNode_call json_dumps tools_by_name inputs).1
    `prefix_of` (invocation <$> requested inputs) ∧
  (∀ upd,
     (Part2.BasicToolNode_call json_dumps tools_by_name inputs).2 = Return upd →
     (Part2.BasicToolNode_call json_dumps tools_by_name inputs).1
       = invocation <$> requested inputs).
Proof.
  unfold Part2.BasicToolNode_call, requested, get_tool_calls.
  destruct (truthy _); [|split; [apply prefix_nil|done]].
  unfold_result.
  destruct (subscript_last _) as [message|e]; [|split; [apply prefix_nil|done]].
  destruct (tool_calls_attr message) as [tool_calls|];
    [|split; [apply prefix_nil|done]].
  simpl.
  destruct (Part2.run_tool_calls _ _ _ _ _) as [log r] eqn:Hrun.
  apply run_tool_calls_log in Hrun as (n & -> & Hreturn). simpl. split.
  - rewrite <- (take_drop n tool_calls) at 2. rewrite fmap_app. by apply prefix_app_r.
  - intros upd Hupd. destruct r as [outputs|e]; [|done].
    by apply (Hreturn outputs).
Qed.

(** X4: whatever its input and however it ends, [BasicToolNode.__call__]
    invokes tools only for the tool calls of the last message, in their
    order and each at most once: the invocations are a prefix of the
    requested calls, and all of them when an output is returned. *)
Theorem BasicToolNode_call_invokes_requested json_dumps tools_by_name
    (inputs : gmap string pyval) :
  (Part2.BasicToolNode_call json_dumps tools_by_name inputs).1
    `prefix_of` (invocation <$> requested inputs) ∧
  (∀ upd,
     (Part2.BasicToolNode_call json_dumps tools_by_name inputs).2 = Return upd →
     (Part2.BasicToolNode_call json_dumps tools_by_name inputs).1
       = invocation <$> requested inputs).
Proof. apply BasicToolNode_call_log. Qed.

(** The calls before the first unregistered name are served; the loop then
    raises [KeyError] with that name. *)
Lemma run_tool_calls_unknown json_dumps tools_by_name pre tool_call rest outputs log :
  Forall (λ tool_call, ∃ output, served json_dumps tools_by_name tool_call output) pre →
  tools_by_name !! tc_name tool_call = None →
  Part2.run_tool_calls json_dumps tools_by_name (pre ++ tool_call :: rest) outputs log
  = (log ++ (invocation <$> pre), Raise (KeyError (VStr (tc_name tool_call)))).
Proof.
  intros Hpre Hnone. revert outputs log.
  induction Hpre as [|served_call pre Hcall _ IH]; intros outputs log; simpl.
  - by rewrite Hnone, app_nil_r.
  - destruct Hcall as (output & tool & tool_result & content & -> & -> & -> & _).
    rewrite IH. by rewrite <- app_assoc.
Qed.

(** X5: a tool call whose name is not registered makes
    [BasicToolNode.__call__] raise [KeyError] with that name, and no output
    is returned; the tools of the calls before it have been invoked by
    then, and none of the calls after it is. *)
Theorem BasicToolNode_call_unknown_tool json_dumps tools_by_name
    (inputs : gmap string pyval) pre tool_call rest :
  requested inputs = pre ++ tool_call :: rest →
  Forall (λ tool_call, ∃ output, served json_dumps tools_by_name tool_call output) pre →
  tools_by_name !! tc_name tool_call = None →
  Part2.BasicToolNode_call json_dumps tools_by_name inputs
  = (invocation <$> pre, Raise (KeyError (VStr (tc_name tool_call)))).
Proof.
  intros Hrequested Hpre Hnone.
  rewrite BasicToolNode_call_requested by (rewrite Hrequested; by destruct pre).
  rewrite Hrequested.
  by rewrite (run_tool_calls_unknown _ _ _ _ _ _ _ Hpre Hnone).
Qed.

Lemma BasicToolNode_call_unknown_tool_witness :
  Part2.BasicToolNode_call sample_dumps (Part2.BasicToolNode [search_tool])
    {[ "messages" := VList [VMsg (AIMessage VNone [search_call; review_call])] ]}
  = ([("tavily_search_results_json", tc_args search_call)],
     Raise (KeyError (VStr "human_assistance"))).
Proof.
  apply (BasicToolNode_call_unknown_tool sample_dumps (Part2.BasicToolNode [search_tool])
           {[ "messages" := VList [VMsg (AIMessage VNone [search_call; review_call])] ]}
           [search_call] review_call []).
  - reflexivity.
  - constructor; [|constructor]. eexists. exists search_tool. do 2 eexists.
    repeat split; reflexivity.
  - reflexivity.
Defined.

(** X6: [BasicToolNode.__call__] looks at the last message only: two
    inputs whose messages lists end with the same message give the same
    invocations and the same outcome, whatever else they hold. *)
Theorem BasicToolNode_call_last_message json_dumps tools_by_name
    (inputs inputs' : gmap string pyval) messages messages' message :
  inputs !! "messages" = Some (VList messages) →
  inputs' !! "messages" = Some (VList messages') →
  last messages = Some message →
  last messages' = Some message →
  Part2.BasicToolNode_call json_dumps tools_by_name inputs
  = Part2.BasicToolNode_call json_dumps tools_by_name inputs'.
Proof.
  intros Hinputs Hinputs' Hlast Hlast'.
  unfold Part2.BasicToolNode_call. rewrite Hinputs, Hinputs'. simpl.
  assert (messages ≠ []) as Hne by (intros ->; discriminate).
  assert (messages' ≠ []) as Hne' by (intros ->; discriminate).
  rewrite !bool_decide_eq_false_2 by done. simpl.
  unfold_result. by rewrite Hlast, Hlast'.
Qed.

Lemma BasicToolNode_call_last_message_witness :
  Part2.BasicToolNode_call sample_dumps (Part2.BasicToolNode [search_tool])
    {[ "messages" := VList [question; VMsg (AIMessage VNone [search_call])] ]}
  = Part2.BasicToolNode_call sample_dumps (Part2.BasicToolNode [search_tool])
      (<["name" := VStr "LangGraph"]>
       {[ "messages" := VList [VMsg (AIMessage VNone [search_call])] ]}).
Proof.
  apply (BasicToolNode_call_last_message sample_dumps _ _ _
           [question; VMsg (AIMessage VNone [search_call])]
           [VMsg (AIMessage VNone [search_call])]
           (VMsg (AIMessage VNone [search_call]))); reflexivity.
Defined.

(** ** The router and the tool node together *)

Lemma route_tools_dict py_str (inputs : gmap string pyval) :
  Part2.route_tools py_str (VDict inputs)
  = if truthy (default (VList []) (inputs !! "messages")) then
      ai_message ← subscript_last (default (VList []) (inputs !! "messages"));
      match tool_calls_attr ai_message with
      | Some (_ :: _) => Return "tools"
      | _ => Return END
      end
    else Raise (ValueError
           ("No messages found in input state to tool_edge: " +:+ py_str (VDict inputs))).
Proof.
  unfold Part2.route_tools, get. unfold_result.
  destruct (truthy _); [|done].
  destruct (subscript_last _) as [ai_message|]; [|done].
  by destruct (tool_calls_attr ai_message) as [[|??]|].
Qed.

(** X7: the router and the tool node agree.  When [route_tools] sends a
    state to "tools", the last message has tool calls to run, and
    [BasicToolNode.__call__] on that state passes its guard and is the run
    of exactly those calls. *)
Theorem route_tools_sends_calls py_str json_dumps tools_by_name
    (inputs : gmap string pyval) :
  Part2.route_tools py_str (VDict inputs) = Return "tools" →
  requested inputs ≠ [] ∧
  Part2.BasicToolNode_call json_dumps tools_by_name inputs
  = (let '(log, r) :=
       Part2.run_tool_calls json_dumps tools_by_name (requested inputs) [] [] in
     (log, outputs ← r; mret {[ "messages" := VList outputs ]})).
Proof.
  rewrite route_tools_dict. intros Hroute.
  assert (requested inputs ≠ []) as Hne.
  { revert Hroute. unfold requested. unfold_result.
    destruct (truthy _); [|done].
    destruct (subscript_last _) as [ai_message|]; [|done].
    by destruct (tool_calls_attr ai_message) as [[|??]|]. }
  split; [done|]. by apply BasicToolNode_call_requested.
Qed.

Lemma route_tools_sends_calls_witness :
  requested {[ "messages" := VList [question; VMsg (AIMessage VNone [search_call])] ]}
    ≠ [] ∧
  Part2.BasicToolNode_call sample_dumps (Part2.BasicToolNode [search_tool])
    {[ "messages" := VList [question; VMsg (AIMessage VNone [search_call])] ]}
  = ([("tavily_search_results_json", tc_args search_call)],
     Return {[ "messages" :=
       VList [VMsg (ToolMessage "LangGraph Quickstart"
                      (Some "tavily_search_results_json") "toolu_01")] ]}).
Proof.
  exact (route_tools_sends_calls sample_str sample_dumps (Part2.BasicToolNode [search_tool])
           {[ "messages" := VList [question; VMsg (AIMessage VNone [search_call])] ]}
           eq_refl).
Defined.

(** X8: when [route_tools] ends the turn on a state, the last message asks
    for no tool, and [BasicToolNode.__call__] on that state would invoke no
    tool at all. *)
Theorem route_tools_end_no_invocation py_str json_dumps tools_by_name
    (inputs : gmap string pyval) :
  Part2.route_tools py_str (VDict inputs) = Return END →
  requested inputs = [] ∧
  (Part2.BasicToolNode_call json_dumps tools_by_name inputs).1 = [].
Proof.
  rewrite route_tools_dict. intros Hroute.
  assert (requested inputs = []) as Hnone.
  { revert Hroute. unfold requested. unfold_result.
    destruct (truthy _); [|done].
    destruct (subscript_last _) as [ai_message|]; [|done].
    by destruct (tool_calls_attr ai_message) as [[|??]|]. }
  split; [done|].
  destruct (BasicToolNode_call_log json_dumps tools_by_name inputs) as [Hprefix _].
  rewrite Hnone in Hprefix. by apply prefix_nil_inv in Hprefix.
Qed.

Lemma route_tools_end_no_invocation_witness :
  requested {[ "messages" := VList [question] ]} = [] ∧
  (Part2.BasicToolNode_call sample_dumps (Part2.BasicToolNode [search_tool])
     {[ "messages" := VList [question] ]}).1 = [].
Proof.
  exact (route_tools_end_no_invocation sample_str sample_dumps
           (Part2.BasicToolNode [search_tool])
           {[ "messages" := VList [question] ]} eq_refl).
Defined.

(** X9: on a dict state the two guards fire together: [route_tools]
    raises its [ValueError] exactly when [BasicToolNode.__call__] raises
    its own, which is when the [messages] entry is missing or not truthy. *)
Theorem guards_fire_together py_str json_dumps tools_by_name
    (inputs : gmap string pyval) :
  Part2.route_tools py_str (VDict inputs)
    = Raise (ValueError
        ("No messages found in input state to tool_edge: " +:+ py_str (VDict inputs)))
  ↔ (Part2.BasicToolNode_call json_dumps tools_by_name inputs).2
      = Raise (ValueError "No message found in input").
Proof.
  rewrite BasicToolNode_call_guard_falsy, route_tools_dict.
  destruct (truthy _) eqn:Htruthy; [|done].
  split; [|done]. intros Hraise. exfalso. revert Hraise.
  unfold subscript_last. unfold_result.
  repeat case_match; congruence.
Qed.

(** X10: [route_tools] looks at the last message only, in either form of
    the state: two states whose messages end with the same message get the
    same label. *)
Theorem route_tools_last_message py_str (state state' : pyval)
    (messages messages' : list pyval) (ai_message : pyval) :
  (state = VList messages ∨
   ∃ d, state = VDict d ∧ d !! "messages" = Some (VList messages)) →
  (state' = VList messages' ∨
   ∃ d, state' = VDict d ∧ d !! "messages" = Some (VList messages')) →
  last messages = Some ai_message →
  last messages' = Some ai_message →
  Part2.route_tools py_str state = Part2.route_tools py_str state'.
Proof.
  assert (∀ st ms,
    (st = VList ms ∨ ∃ d, st = VDict d ∧ d !! "messages" = Some (VList ms)) →
    last ms = Some ai_message →
    Part2.route_tools py_str st
    = match tool_calls_attr ai_message with
      | Some (_ :: _) => Return "tools"
      | _ => Return END
      end) as Hlabel.
  { intros st ms Hst Hlast.
    assert (ms ≠ []) as Hne by (intros ->; discriminate).
    destruct Hst as [->|(d & -> & Hd)].
    - unfold Part2.route_tools. unfold_result. rewrite Hlast.
      by destruct (tool_calls_attr ai_message) as [[|??]|].
    - rewrite route_tools_dict, Hd. simpl.
      rewrite bool_decide_eq_false_2 by done. unfold_result. by rewrite Hlast. }
  intros Hstate Hstate' Hlast Hlast'.
  by rewrite (Hlabel state messages), (Hlabel state' messages').
Qed.

Lemma route_tools_last_message_witness :
  Part2.route_tools sample_str (VList [VMsg (AIMessage VNone [search_call])])
  = Part2.route_tools sample_str
      (VDict {[ "messages" := VList [question; VMsg (AIMessage VNone [search_call])] ]}).
Proof.
  apply (route_tools_last_message sample_str _ _
           [VMsg (AIMessage VNone [search_call])]
           [question; VMsg (AIMessage VNone [search_call])]
           (VMsg (AIMessage VNone [search_call]))).
  - by left.
  - right. eexists. split; reflexivity.
  - reflexivity.
  - reflexivity.
Defined.

(** ** The two model nodes *)

(** X11: the model node of the extended scenario restricts the one of
    part 2: every update it returns is the update the part 2 node returns on
    the same state and model, and every error of the part 2 node is raised
    by it too. *)
Theorem chatbot_reviewed_restricts llm (state : gmap string pyval) :
  (∀ upd, Part5.chatbot llm state = Return upd → Part2.chatbot llm state = Return upd) ∧
  (∀ e, Part2.chatbot llm state = Raise e → Part5.chatbot llm state = Raise e).
Proof.
  unfold Part2.chatbot, Part5.chatbot. unfold_result.
  destruct (getitem state "messages") as [messages|]; simpl; [|done].
  destruct (llm messages) as [reply|]; simpl; [|done].
  split; [|done]. intros upd.
  destruct (get_tool_calls (VMsg reply)); simpl; [|done].
  by case_bool_decide.
Qed.

(** ** Streaming, further *)

Lemma for_each_app {A} (body : A → stdout → stdout * result ()) xs ys out :
  for_each body (xs ++ ys) out
  = match for_each body xs out with
    | (out', Return _) => for_each body ys out'
    | (out', Raise e) => (out', Raise e)
    end.
Proof.
  revert out. induction xs as [|x xs IH]; intros out; simpl; [done|].
  destruct (body x out) as [mid [[]|e]]; [apply IH|done].
Qed.

(** A loop whose body only appends to what is printed does so itself. *)
Lemma for_each_out {A} (body : A → stdout → stdout * result ()) xs out :
  (∀ x o, body x o = (o ++ (body x []).1, (body x []).2)) →
  for_each body xs out = (out ++ (for_each body xs []).1, (for_each body xs []).2).
Proof.
  intros Hbody. revert out. induction xs as [|x xs IH]; intros out; simpl.
  - by rewrite app_nil_r.
  - rewrite (Hbody x out). destruct (body x []) as [printed [[]|e]]; simpl; [|done].
    rewrite (IH (out ++ printed)), (IH printed). simpl. by rewrite app_assoc.
Qed.

Lemma print_last_message_out py_str value out :
  Part2.print_last_message py_str value out
  = (out ++ (Part2.print_last_message py_str value []).1,
     (Part2.print_last_message py_str value []).2).
Proof.
  unfold Part2.print_last_message.
  destruct (_ ≫= _) as [content|e]; simpl; [done|by rewrite app_nil_r].
Qed.

Lemma stream_graph_updates_out py_str graph_stream user_input out :
  Part2.stream_graph_updates py_str graph_stream user_input out
  = (out ++ (Part2.stream_graph_updates py_str graph_stream user_input []).1,
     (Part2.stream_graph_updates py_str graph_stream user_input []).2).
Proof.
  unfold Part2.stream_graph_updates.
  destruct (graph_stream _) as [events failure].
  rewrite (for_each_out _ events out).
  2:{ intros event o. apply for_each_out. intros value o'.
      apply print_last_message_out. }
  destruct (for_each _ events []) as [printed [[]|e]]; simpl; [by destruct failure|done].
Qed.

Lemma print_last_message_shown py_str value line out :
  shown py_str value line →
  Part2.print_last_message py_str value out = (out ++ [line], Return ()).
Proof.
  intros (content & Hcontent & ->). unfold Part2.print_last_message.
  by rewrite Hcontent.
Qed.

Lemma print_values_shown py_str values lines out :
  Forall2 (shown py_str) values lines →
  for_each (Part2.print_last_message py_str) values out = (out ++ lines, Return ()).
Proof.
  intros Hshown. revert out.
  induction Hshown as [|value line values lines Hvalue _ IH]; intros out; simpl.
  - by rewrite app_nil_r.
  - rewrite (print_last_message_shown _ _ _ _ Hvalue), IH. by rewrite <- app_assoc.
Qed.

Lemma print_events_shown py_str (events : list (list (string * pyval))) liness out :
  Forall2 (λ event lines, Forall2 (shown py_str) event.*2 lines) events liness →
  for_each (λ event, for_each (Part2.print_last_message py_str) event.*2) events out
  = (out ++ concat liness, Return ()).
Proof.
  intros Hshown. revert out.
  induction Hshown as [|event lines events liness Hevent _ IH]; intros out; simpl.
  - by rewrite app_nil_r.
  - rewrite (print_values_shown _ _ _ _ Hevent), IH. by rewrite <- app_assoc.
Qed.

(** X12: when every update the graph yields has a last message with a
    content, [stream_graph_updates] prints one line "Assistant: <content>"
    per update, in the order of the events and of the nodes within an
    event; it then returns, or raises the failure that ended the stream. *)
Theorem stream_graph_updates_prints py_str graph_stream (user_input : string)
    events failure liness out :
  graph_stream (Part2.user_message user_input) = (events, failure) →
  Forall2 (λ event lines, Forall2 (shown py_str) event.*2 lines) events liness →
  Part2.stream_graph_updates py_str graph_stream user_input out
  = (out ++ concat liness,
     match failure with
     | None => Return ()
     | Some e => Raise (ExternalError e)
     end).
Proof.
  intros Hstream Hshown. unfold Part2.stream_graph_updates.
  rewrite Hstream, (print_events_shown _ _ _ _ Hshown). by destruct failure.
Qed.

Lemma stream_graph_updates_prints_witness :
  Part2.stream_graph_updates sample_str sample_stream "hi" ["User: hi"]
  = (["User: hi"; "Assistant: LangGraph is a library."], Return ()).
Proof.
  apply (stream_graph_updates_prints sample_str sample_stream "hi"
           [[("chatbot",
              VDict {[ "messages" :=
                VList [VMsg (AIMessage (VStr "LangGraph is a library.") [])] ]})]]
           None [["Assistant: LangGraph is a library."]] ["User: hi"]).
  - reflexivity.
  - repeat constructor. eexists. split; reflexivity.
Defined.

(** X13: the printing stops at the first update that has no [messages]
    key, no last message or no content: the lines of the updates before it
    stay printed, the interpreter's error is raised, and neither the later
    updates nor the stream's own failure are seen. *)
Theorem stream_graph_updates_stops py_str graph_stream (user_input : string)
    pre event rest failure liness values_pre bad values_rest lines e out :
  graph_stream (Part2.user_message user_input) = (pre ++ event :: rest, failure) →
  Forall2 (λ event lines, Forall2 (shown py_str) event.*2 lines) pre liness →
  event.*2 = values_pre ++ bad :: values_rest →
  Forall2 (shown py_str) values_pre lines →
  (messages ← subscript bad "messages";
   message ← subscript_last messages;
   get_content message) = Raise e →
  Part2.stream_graph_updates py_str graph_stream user_input out
  = (out ++ concat liness ++ lines, Raise e).
Proof.
  intros Hstream Hpre Hevent Hvalues Hbad. unfold Part2.stream_graph_updates.
  rewrite Hstream, for_each_app, (print_events_shown _ _ _ _ Hpre). simpl.
  rewrite Hevent, for_each_app, (print_values_shown _ _ _ _ Hvalues). simpl.
  unfold Part2.print_last_message at 1. rewrite Hbad.
  by rewrite <- app_assoc.
Qed.

Lemma stream_graph_updates_stops_witness :
  Part2.stream_graph_updates sample_str
    (λ _, ([[("chatbot", VDict {[ "messages" := VList [question] ]});
             ("tools", VDict {[ "name" := VStr "LangGraph" ]})];
            [("chatbot", VDict {[ "messages" := VList [question] ]})]],
           Some "ConnectionError"))
    "hi" []
  = (["Assistant: What do you know about LangGraph?"],
     Raise (KeyError (VStr "messages"))).
Proof.
  apply (stream_graph_updates_stops sample_str _ "hi" []
           [("chatbot", VDict {[ "messages" := VList [question] ]});
            ("tools", VDict {[ "name" := VStr "LangGraph" ]})]
           [[("chatbot", VDict {[ "messages" := VList [question] ]})]]
           (Some "ConnectionError") []
           [VDict {[ "messages" := VList [question] ]}]
           (VDict {[ "name" := VStr "LangGraph" ]}) []
           ["Assistant: What do you know about LangGraph?"]).
  - reflexivity.
  - constructor.
  - reflexivity.
  - repeat constructor. eexists. split; reflexivity.
  - reflexivity.
Defined.

(** ** The console loop, further *)

Lemma fallback_out py_str graph_stream out :
  Part2.fallback py_str graph_stream out
  = (out ++ "User: What do you know about LangGraph?" ::
       (Part2.stream_graph_updates py_str graph_stream
          "What do you know about LangGraph?" []).1,
     _ ← (Part2.stream_graph_updates py_str graph_stream
            "What do you know about LangGraph?" []).2;
     mret Part2.Break).
Proof.
  unfold Part2.fallback. rewrite stream_graph_updates_out.
  by rewrite <- app_assoc.
Qed.

(** X14: a console session of lines that are no sentinels and whose
    streaming returns, followed by a sentinel line, ends normally: the
    output is what each line streamed, in order, then "Goodbye!"; whatever
    the console would offer after the sentinel is never read. *)
Theorem console_loop_quits py_str str_lower graph_stream
    (lines : list string) (quit : string) (rest : list (external string)) out :
  Forall (λ line,
            (str_lower line ∉ ["quit"; "exit"; "q"]) ∧
            ((Part2.stream_graph_updates py_str graph_stream line []).2 = Return ()))
    lines →
  str_lower quit ∈ ["quit"; "exit"; "q"] →
  Part2.console_loop py_str str_lower graph_stream
    ((Done <$> lines) ++ Done quit :: rest) out
  = (out ++
     concat ((λ line, (Part2.stream_graph_updates py_str graph_stream line []).1)
               <$> lines)
     ++ ["Goodbye!"],
     Return ()).
Proof.
  intros Hlines Hquit. revert out.
  induction Hlines as [|line lines [Hline Hstream] _ IH]; intros out;
    cbn [fmap list_fmap app Part2.console_loop concat].
  - unfold Part2.loop_iteration. by rewrite bool_decide_eq_true_2.
  - unfold Part2.loop_iteration at 1. rewrite bool_decide_eq_false_2 by done.
    rewrite stream_graph_updates_out, Hstream.
    rewrite IH. by rewrite <- !app_assoc.
Qed.

Lemma console_loop_quits_witness :
  Part2.console_loop sample_str sample_lower sample_stream
    [Done "hi"; Done "Quit"; Done "hello"] []
  = (["Assistant: LangGraph is a library."; "Goodbye!"], Return ()).
Proof.
  apply (console_loop_quits sample_str sample_lower sample_stream
           ["hi"] "Quit" [Done "hello"] []).
  - constructor; [|constructor]. split; [|reflexivity].
    vm_compute (sample_lower _). intros Hin.
    repeat (apply elem_of_cons in Hin as [Heq|Hin]; [discriminate Heq|]).
    by apply elem_of_nil in Hin.
  - vm_compute (sample_lower _). apply list_elem_of_here.
Defined.

(** X15: when [input] is not available, the loop asks the fallback
    question in the user's place: it prints "User: What do you know about
    LangGraph?", streams the answer to that question, and ends, whatever the
    console would offer next; a failure of that streaming comes out of the
    loop. *)
Theorem console_loop_without_input py_str str_lower graph_stream
    (e : string) (rest : list (external string)) out :
  Part2.console_loop py_str str_lower graph_stream (Failed e :: rest) out
  = (out ++ "User: What do you know about LangGraph?" ::
       (Part2.stream_graph_updates py_str graph_stream
          "What do you know about LangGraph?" []).1,
     (Part2.stream_graph_updates py_str graph_stream
        "What do you know about LangGraph?" []).2).
Proof.
  cbn [Part2.console_loop Part2.loop_iteration]. rewrite fallback_out.
  by destruct ((Part2.stream_graph_updates _ _ _ _).2) as [[]|].
Qed.

Lemma assistant_lines_no_goodbye lines :
  Forall assistant_line lines → "Goodbye!" ∉ lines.
Proof.
  intros Hlines Hin. rewrite Forall_forall in Hlines.
  by apply not_assistant_line_goodbye, Hlines.
Qed.

(** What one iteration prints, by the way it ends. *)
Lemma loop_iteration_printed py_str str_lower graph_stream line out out' r :
  Part2.loop_iteration py_str str_lower graph_stream line out = (out', r) →
  ∃ printed,
    out' = out ++ printed ∧
    ((r = Return Part2.Break ∧ printed = ["Goodbye!"]) ∨ "Goodbye!" ∉ printed).
Proof.
  assert (∀ mid, printed_by assistant_line out mid →
    Part2.fallback py_str graph_stream mid = (out', r) →
    ∃ printed, out' = out ++ printed ∧
      ((r = Return Part2.Break ∧ printed = ["Goodbye!"]) ∨ "Goodbye!" ∉ printed))
    as Hfallback.
  { intros mid (lines1 & -> & Hlines1) Hrun.
    apply fallback_spec in Hrun as [(lines2 & -> & Hlines2) _].
    exists (lines1 ++ "User: What do you know about LangGraph?" :: lines2).
    split; [by rewrite <- !app_assoc|]. right.
    rewrite elem_of_app, elem_of_cons.
    intros [Hin|[?|Hin]];
      [by apply (assistant_lines_no_goodbye lines1)|done
      |by apply (assistant_lines_no_goodbye lines2)]. }
  unfold Part2.loop_iteration.
  destruct line as [user_input|]; [|apply Hfallback, printed_by_refl].
  case_bool_decide.
  - intros [= <- <-]. exists ["Goodbye!"]. split; [done|by left].
  - destruct (Part2.stream_graph_updates _ _ _ _) as [mid [[]|e]] eqn:Hstream;
      apply stream_graph_updates_printed in Hstream as Hmid.
    + intros [= <- <-]. destruct Hmid as (lines & -> & Hlines).
      exists lines. split; [done|]. right. by apply assistant_lines_no_goodbye.
    + by apply Hfallback.
Qed.

(** X16: "Goodbye!" is the loop's last word.  Whatever the console session
    and the graph do, when the loop has printed "Goodbye!" it is the last
    line printed, it is printed once, and the loop has ended without an
    error. *)
Theorem console_loop_goodbye_last py_str str_lower graph_stream
    (session : list (external string)) out :
  ∃ printed,
    (Part2.console_loop py_str str_lower graph_stream session out).1 = out ++ printed ∧
    ("Goodbye!" ∈ printed →
     ∃ before,
       printed = before ++ ["Goodbye!"] ∧ ("Goodbye!" ∉ before) ∧
       (Part2.console_loop py_str str_lower graph_stream session out).2 = Return ()).
Proof.
  revert out. induction session as [|line session IH]; intros out;
    cbn [Part2.console_loop].
  - destruct (Part2.loop_iteration py_str str_lower graph_stream (Failed "EOFError") out)
      as [out' r] eqn:Hiter.
    apply loop_iteration_printed in Hiter as (printed & -> & Hprinted).
    exists printed. simpl. split; [done|].
    destruct Hprinted as [[-> ->]|Hno]; [|done].
    intros _. exists []. split; [done|]. split; [apply not_elem_of_nil|done].
  - destruct (Part2.loop_iteration py_str str_lower graph_stream line out)
      as [mid r] eqn:Hiter.
    apply loop_iteration_printed in Hiter as (printed1 & -> & Hprinted1).
    destruct r as [[]|e]; simpl.
    + destruct Hprinted1 as [[[=] _]|Hno1].
      destruct (IH (out ++ printed1)) as (printed2 & Hout & Hgoodbye).
      exists (printed1 ++ printed2). rewrite Hout, <- app_assoc. split; [done|].
      rewrite elem_of_app. intros [?|Hin]; [done|].
      destruct (Hgoodbye Hin) as (before & -> & Hbefore & Hr).
      exists (printed1 ++ before). rewrite <- app_assoc. split; [done|].
      split; [|done]. rewrite elem_of_app. tauto.
    + exists printed1. split; [done|].
      destruct Hprinted1 as [[_ ->]|Hno1]; [|done].
      intros _. exists []. split; [done|]. split; [apply not_elem_of_nil|done].
    + exists printed1. split; [done|].
      destruct Hprinted1 as [[[=] _]|Hno1]. done.
Qed.

(** ** The tool node: all or nothing *)

Lemma run_tool_calls_returns json_dumps tools_by_name tool_calls outputs log log' outputs' :
  Part2.run_tool_calls json_dumps tools_by_name tool_calls outputs log
    = (log', Return outputs') →
  ∃ new, outputs' = outputs ++ new ∧
         Forall2 (served json_dumps tools_by_name) tool_calls new.
Proof.
  revert outputs log.
  induction tool_calls as [|tool_call rest IH]; intros outputs log; simpl.
  - intros [= _ <-]. exists []. by rewrite app_nil_r.
  - destruct (tools_by_name !! tc_name tool_call) as [tool|] eqn:Htool; [|done].
    destruct (invoke tool (tc_args tool_call)) as [tool_result|] eqn:Hinvoke; [|done].
    destruct (json_dumps tool_result) as [content|] eqn:Hdumps; [|done].
    intros Hrun. apply IH in Hrun as (new & -> & Hnew).
    eexists (_ :: new). rewrite <- app_assoc. split; [done|].
    constructor; [|done]. by exists tool, tool_result, content.
Qed.

(** X17: [BasicToolNode.__call__] returns all the tool messages or none:
    when it returns an update, the update holds nothing but a messages list
    with one [ToolMessage] for each requested call, in order, so every
    call's tool was registered and returned, and its result serialized. *)
Theorem BasicToolNode_call_all_or_nothing json_dumps tools_by_name
    (inputs upd : gmap string pyval) :
  (Part2.BasicToolNode_call json_dumps tools_by_name inputs).2 = Return upd →
  ∃ outputs,
    upd = {[ "messages" := VList outputs ]} ∧
    Forall2 (served json_dumps tools_by_name) (requested inputs) outputs.
Proof.
  unfold Part2.BasicToolNode_call, requested, get_tool_calls.
  destruct (truthy _); [|done]. unfold_result.
  destruct (subscript_last _) as [message|]; [|done].
  destruct (tool_calls_attr message) as [tool_calls|]; [|done]. simpl.
  destruct (Part2.run_tool_calls _ _ _ _ _) as [log [outputs|e]] eqn:Hrun; [|done].
  simpl. intros [= <-].
  apply run_tool_calls_returns in Hrun as (new & -> & Hnew). by exists new.
Qed.

Lemma BasicToolNode_call_all_or_nothing_witness :
  ∃ outputs,
    ({[ "messages" :=
        VList [VMsg (ToolMessage "LangGraph Quickstart"
                       (Some "tavily_search_results_json") "toolu_01")] ]}
       : gmap string pyval)
      = {[ "messages" := VList outputs ]} ∧
    Forall2 (served sample_dumps (Part2.BasicToolNode [search_tool]))
      (requested {[ "messages" := VList [VMsg (AIMessage VNone [search_call])] ]})
      outputs.
Proof.
  exact (BasicToolNode_call_all_or_nothing sample_dumps (Part2.BasicToolNode [search_tool])
           {[ "messages" := VList [VMsg (AIMessage VNone [search_call])] ]} _ eq_refl).
Defined.

(** ** A state without messages *)

(** X18: on a state that has no [messages] key the functions differ: the
    model nodes raise [KeyError] without calling the model, while the tool
    node and the router, which read the key with a default, raise their
    own [ValueError]; no tool is invoked. *)
Theorem no_messages_key py_str json_dumps llm tools_by_name (state : gmap string pyval) :
  state !! "messages" = None →
  Part2.chatbot llm state = Raise (KeyError (VStr "messages")) ∧
  Part5.chatbot llm state = Raise (KeyError (VStr "messages")) ∧
  Part2.BasicToolNode_call json_dumps tools_by_name state
    = ([], Raise (ValueError "No message found in input")) ∧
  Part2.route_tools py_str (VDict state)
    = Raise (ValueError
        ("No messages found in input state to tool_edge: " +:+ py_str (VDict state))).
Proof.
  intros Hnone.
  unfold Part2.chatbot, Part5.chatbot, Part2.BasicToolNode_call, getitem.
  rewrite route_tools_dict, Hnone. by unfold_result.
Qed.

Lemma no_messages_key_witness :
  Part2.chatbot (λ _, Done (AIMessage VNone [])) {[ "name" := VStr "LangGraph" ]}
    = Raise (KeyError (VStr "messages")) ∧
  Part2.BasicToolNode_call sample_dumps (Part2.BasicToolNode [search_tool])
    {[ "name" := VStr "LangGraph" ]}
    = ([], Raise (ValueError "No message found in input")).
Proof.
  destruct (no_messages_key sample_str sample_dumps (λ _, Done (AIMessage VNone []))
              (Part2.BasicToolNode [search_tool]) {[ "name" := VStr "LangGraph" ]})
    as (Hchatbot & _ & Htools & _); [reflexivity|].
  by split.
Defined.

(** ** The human-review tool, further *)

(** X19: how [human_assistance] fails.  With no resume value it raises
    [GraphInterrupt], carrying the question and the proposed name and
    birthday; on a resume payload that is not a dict it raises
    [AttributeError] at [get]; on a dict whose [correct] entry is not a
    string it raises [AttributeError] at [lower].  No [Command] is returned
    in these cases. *)
Theorem human_assistance_failures py_str str_lower interrupt
    (name birthday tool_call_id : string) :
  (interrupt (surfaced name birthday) = None →
   Part5.human_assistance py_str str_lower interrupt name birthday tool_call_id
     = Raise (GraphInterrupt (surfaced name birthday))) ∧
  (∀ resume,
     interrupt (surfaced name birthday) = Some resume →
     (∀ d, resume ≠ VDict d) →
     Part5.human_assistance py_str str_lower interrupt name birthday tool_call_id
       = Raise (AttributeError "get")) ∧
  (∀ d correct,
     interrupt (surfaced name birthday) = Some (VDict d) →
     d !! "correct" = Some correct →
     (∀ s, correct ≠ VStr s) →
     Part5.human_assistance py_str str_lower interrupt name birthday tool_call_id
       = Raise (AttributeError "lower")).
Proof.
  unfold Part5.human_assistance. fold (surfaced name birthday).
  split; [|split].
  - by intros ->.
  - intros resume -> Hdict. unfold get. unfold_result.
    destruct resume as [| | | | |d|]; try done. by destruct (Hdict d).
  - intros d correct -> Hcorrect Hstr. unfold get, Part5.lower. unfold_result.
    rewrite Hcorrect. simpl.
    destruct correct as [| | |s| | |]; try done. by destruct (Hstr s).
Qed.

Lemma human_assistance_failures_witness :
  Part5.human_assistance sample_str sample_lower (λ _, None)
    "LangGraph" "January 17, 2024" "toolu_02"
    = Raise (GraphInterrupt (surfaced "LangGraph" "January 17, 2024")) ∧
  Part5.human_assistance sample_str sample_lower (λ _, Some (VStr "yes"))
    "LangGraph" "January 17, 2024" "toolu_02"
    = Raise (AttributeError "get").
Proof.
  split.
  - by apply (human_assistance_failures sample_str sample_lower (λ _, None)).
  - destruct (human_assistance_failures sample_str sample_lower (λ _, Some (VStr "yes"))
                "LangGraph" "January 17, 2024" "toolu_02") as (_ & Hget & _).
    by apply (Hget (VStr "yes")).
Defined.

(** ** Printing the streamed states *)

(** X20: the loop over the streamed states prints the last message of
    each state that has a [messages] key, in order, and passes over the
    states that have none without an error. *)
Theorem print_events_prints pretty_repr (events : list (gmap string pyval))
    (shown_messages : list Message) out :
  Forall2 (λ (event : gmap string pyval) message,
             ∃ messages, event !! "messages" = Some (VList messages) ∧
                         last messages = Some (VMsg message))
    (filter (λ event : gmap string pyval, "messages" ∈ dom event) events)
    shown_messages →
  print_events pretty_repr events out
  = (out ++ (pretty_repr <$> shown_messages), Return ()).
Proof.
  unfold print_events. revert shown_messages out.
  induction events as [|event events IH]; intros shown_messages out;
    rewrite ?filter_nil, ?filter_cons; simpl.
  - intros ->%Forall2_nil_inv_l. by rewrite app_nil_r.
  - destruct (decide ("messages" ∈ dom event)) as [Hin|Hnotin].
    + intros (message & rest & (messages & Hevent & Hlast) & Hrest & ->)%Forall2_cons_inv_l.
      rewrite bool_decide_eq_true_2 by done.
      unfold getitem. rewrite Hevent. unfold_result. rewrite Hlast. simpl.
      rewrite (IH rest) by done. by rewrite <- app_assoc.
    + intros Hrest. rewrite bool_decide_eq_false_2 by done. by apply IH.
Qed.

Lemma print_events_prints_witness :
  print_events (λ _, "== Message ==")
    [ {[ "messages" := VList [question] ]};
      {[ "name" := VStr "LangGraph" ]};
      {[ "messages" := VList [question; VMsg (AIMessage VNone [review_call])] ]} ]
    []
  = (["== Message =="; "== Message =="], Return ()).
Proof.
  apply (print_events_prints (λ _, "== Message ==") _
           [HumanMessage (VStr "What do you know about LangGraph?");
            AIMessage VNone [review_call]] []).
  repeat constructor; eexists; split; reflexivity.
Defined.

(** X21: a streamed state whose messages list is empty stops the loop:
    the states before it are printed as they would be alone, then
    [IndexError] is raised and no later state is printed. *)
Theorem print_events_empty_messages pretty_repr
    (pre rest : list (gmap string pyval)) (event : gmap string pyval) out out' :
  print_events pretty_repr pre out = (out', Return ()) →
  event !! "messages" = Some (VList []) →
  print_events pretty_repr (pre ++ event :: rest) out = (out', Raise IndexError).
Proof.
  unfold print_events. intros Hpre Hevent.
  rewrite for_each_app, Hpre. simpl.
  rewrite bool_decide_eq_true_2 by (apply elem_of_dom; by eexists).
  unfold getitem. by rewrite Hevent.
Qed.

Lemma print_events_empty_messages_witness :
  print_events (λ _, "== Message ==")
    [ {[ "messages" := VList [question] ]};
      {[ "messages" := VList [] ]};
      {[ "messages" := VList [question] ]} ]
    []
  = (["== Message =="], Raise IndexError).
Proof.
  apply (print_events_empty_messages (λ _, "== Message ==")
           [ {[ "messages" := VList [question] ]} ]
           [ {[ "messages" := VList [question] ]} ]
           {[ "messages" := VList [] ]} []); reflexivity.
Defined.

(** ** The snapshot's fields *)

(** X22: the dictionary shown for a snapshot holds the [name] and
    [birthday] entries of the state, as they are, when the state has them,
    and never any other key: no [messages]. *)
Theorem name_and_birthday_lookup (values : gmap string pyval) (key : string) :
  name_and_birthday values !! key
  = if bool_decide (key = "name" ∨ key = "birthday") then values !! key else None.
Proof.
  unfold name_and_birthday.
  destruct (values !! key) as [v|] eqn:Hkey.
  - case_bool_decide as Hwhich.
    + apply map_lookup_filter_Some. split; [done|]. simpl.
      rewrite !elem_of_cons. tauto.
    + apply map_lookup_filter_None. right. intros v' Hv' Hin. simpl in Hin.
      rewrite !elem_of_cons, elem_of_nil in Hin. tauto.
  - assert (filter (λ kv : string * pyval, kv.1 ∈ ["name"; "birthday"]) values !! key = None)
      as -> by (apply map_lookup_filter_None; by left).
    by case_bool_decide.
Qed.

(** ** The message history, node by node *)

(** An update returned by either model node holds the model's reply to the
    state's messages, and nothing else. *)
Lemma chatbot_returns llm (state upd : gmap string pyval) :
  Part2.chatbot llm state = Return upd ∨ Part5.chatbot llm state = Return upd →
  ∃ messages reply,
    state !! "messages" = Some messages ∧
    llm messages = Done reply ∧
    upd = {[ "messages" := VList [VMsg reply] ]}.
Proof.
  unfold Part2.chatbot, Part5.chatbot, getitem. unfold_result.
  destruct (state !! "messages") as [messages|] eqn:Hstate; simpl; [|by intros [?|?]].
  destruct (llm messages) as [reply|] eqn:Hreply; simpl; [|by intros [?|?]].
  intros Hupd. exists messages, reply. split; [done|]. split; [done|].
  destruct Hupd as [[= <-]|Hupd]; [done|].
  destruct (get_tool_calls (VMsg reply)); simpl in Hupd; [|done].
  case_bool_decide; by simplify_eq.
Qed.

(** An update returned by the tool node holds the tool messages of the
    requested calls, and nothing else. *)
Lemma BasicToolNode_call_returns json_dumps tools_by_name
    (state upd : gmap string pyval) log :
  Part2.BasicToolNode_call json_dumps tools_by_name state = (log, Return upd) →
  ∃ outputs,
    upd = {[ "messages" := VList outputs ]} ∧
    Forall2 (served json_dumps tools_by_name) (requested state) outputs.
Proof.
  unfold Part2.BasicToolNode_call, requested, get_tool_calls.
  destruct (truthy _); [|done]. unfold_result.
  destruct (subscript_last _) as [message|]; [|done].
  destruct (tool_calls_attr message) as [tool_calls|]; [|done]. simpl.
  destruct (Part2.run_tool_calls _ _ _ _ _) as [log' [outputs|e]] eqn:Hrun; [|done].
  simpl. intros [= _ <-].
  apply run_tool_calls_returns in Hrun as (new & -> & Hnew). by exists new.
Qed.

(** What each node adds to the history. *)
Lemma node_step_adds (state state' : gmap string pyval) :
  node_step state state' →
  ∃ new, history state' = history state ++ new.
Proof.
  intros Hstep. destruct Hstep as
    [llm state upd Hrun | json_dumps tools state log upd Hrun
    | llm state upd Hrun
    | py_str str_lower interrupt name birthday tool_call_id state cmd Hrun];
    rewrite history_apply_update.
  - destruct (chatbot_returns llm state upd) as (? & reply & _ & _ & ->); [by left|].
    by eexists.
  - apply BasicToolNode_call_returns in Hrun as (outputs & -> & _). by eexists.
  - destruct (chatbot_returns llm state upd) as (? & reply & _ & _ & ->); [by right|].
    by eexists.
  - by eexists.
Qed.

(** C7: every node returns, under [messages], only messages it has just
    made, never a message of the history it was given: a model node the one
    reply of the model, the tool node one [ToolMessage] per requested call,
    [human_assistance] the one [ToolMessage] of the review.  With the
    reducer appending them, a step leaves the history as it was and puts
    these messages after it; so after any number of steps the earlier
    history is a prefix of the later one. *)
Theorem history_append_only :
  (∀ llm (state upd : gmap string pyval),
     Part2.chatbot llm state = Return upd ∨ Part5.chatbot llm state = Return upd →
     ∃ messages reply,
       state !! "messages" = Some messages ∧
       llm messages = Done reply ∧
       upd = {[ "messages" := VList [VMsg reply] ]} ∧
       history (apply_update state upd) = history state ++ [VMsg reply]) ∧
  (∀ json_dumps tools (state upd : gmap string pyval) log,
     Part2.BasicToolNode_call json_dumps (Part2.BasicToolNode tools) state
       = (log, Return upd) →
     ∃ outputs,
       upd = {[ "messages" := VList outputs ]} ∧
       Forall2 (served json_dumps (Part2.BasicToolNode tools)) (requested state) outputs ∧
       history (apply_update state upd) = history state ++ outputs) ∧
  (∀ py_str str_lower interrupt name birthday tool_call_id cmd
     (state : gmap string pyval),
     Part5.human_assistance py_str str_lower interrupt name birthday tool_call_id
       = Return cmd →
     ∃ response,
       Part5.update cmd !! "messages"
         = Some (VList [VMsg (ToolMessage response None tool_call_id)]) ∧
       history (apply_update state (Part5.update cmd))
         = history state ++ [VMsg (ToolMessage response None tool_call_id)]) ∧
  (∀ state state' : gmap string pyval,
     rtc node_step state state' → history state `prefix_of` history state').
Proof.
  split; [|split; [|split]].
  - intros llm state upd Hupd.
    destruct (chatbot_returns llm state upd Hupd) as (messages & reply & ? & ? & ->).
    exists messages, reply. by rewrite history_apply_update.
  - intros json_dumps tools state upd log Hupd.
    apply BasicToolNode_call_returns in Hupd as (outputs & -> & Houtputs).
    exists outputs. by rewrite history_apply_update.
  - intros py_str str_lower interrupt name birthday tool_call_id cmd state Hcmd.
    destruct (human_assistance_cases py_str str_lower interrupt name birthday tool_call_id)
      as [(verified_name & verified_birthday & response & Hreturn)
         | [Hraise|[attr Hraise]]]; [|congruence..].
    assert (cmd = Part5.mkCommand
                    (state_update verified_name verified_birthday response tool_call_id))
      as -> by congruence.
    exists response. by rewrite history_apply_update.
  - intros state state'. induction 1 as [state|state mid state' Hstep _ IH]; [done|].
    destruct (node_step_adds _ _ Hstep) as [new Hnew].
    etrans; [|exact IH]. rewrite Hnew. by apply prefix_app_r.
Qed.

Lemma history_append_only_witness :
  [question] `prefix_of`
  [question; VMsg (AIMessage VNone [search_call]);
   VMsg (ToolMessage "LangGraph Quickstart" (Some "tavily_search_results_json") "toolu_01")].
Proof.
  assert (rtc node_step
            {[ "messages" := VList [question] ]}
            (apply_update
               (apply_update {[ "messages" := VList [question] ]}
                  {[ "messages" := VList [VMsg (AIMessage VNone [search_call])] ]})
               {[ "messages" := VList [VMsg (ToolMessage "LangGraph Quickstart"
                                               (Some "tavily_search_results_json")
                                               "toolu_01")] ]})) as Hrun.
  { eapply rtc_l.
    { apply (step_chatbot (λ _, Done (AIMessage VNone [search_call]))). reflexivity. }
    eapply rtc_l; [|apply rtc_refl].
    apply (step_tools sample_dumps [search_tool] _
             [("tavily_search_results_json", tc_args search_call)]).
    reflexivity. }
  destruct history_append_only as (_ & _ & _ & Hprefix).
  exact (Hprefix _ _ Hrun).
Defined.
